(** * The security verification pipeline of connexion

    A shallow embedding of [connexion/security/security_handler_factory.py],
    [aiohttp_security_handlers_factory.py], [flask_security_handler_factory.py]
    and [aiohttp_security_handler_factory.py], with the properties the
    specification states about them.

    Python objects are values of [pyval]; a dict with string keys is a
    [gmap string pyval]; a Python [set] is a [gset].  Code that raises is a
    computation in a state-and-exception monad [M] over a [world] that holds
    the request context and a journal of the effects that leave the process. *)

From Stdlib Require Import Ascii.
From stdpp Require Import gmap strings list.

Set Warnings "-register-all".
Set Default Proof Using "Type".

(** ** Python strings

    A [str] is a [string] of code points below 256, which is what a header
    decoded as Latin-1 holds. *)

Module PyStr.

Definition code (c : ascii) : N := N_of_ascii c.

(** [str.isspace] on one character: TAB..CR, FS..US, SPACE, NEL, NBSP. *)
Definition isspace (c : ascii) : bool :=
  let n := code c in
  ((9 <=? n) && (n <=? 13) || (28 <=? n) && (n <=? 32)
   || (n =? 133) || (n =? 160))%N.

(** [str.lower] on one character: A..Z and the Latin-1 capitals
    U+00C0..U+00DE other than the multiplication sign. *)
Definition lower_char (c : ascii) : ascii :=
  let n := code c in
  if ((65 <=? n) && (n <=? 90)
      || (192 <=? n) && (n <=? 222) && negb (n =? 215))%N
  then ascii_of_N (n + 32) else c.

Fixpoint lower (s : string) : string :=
  match s with
  | EmptyString => EmptyString
  | String c s' => String (lower_char c) (lower s')
  end.

Fixpoint lstrip (s : string) : string :=
  match s with
  | EmptyString => EmptyString
  | String c s' => if isspace c then lstrip s' else s
  end.

(** The longest prefix without whitespace, and what follows it. *)
Fixpoint span_word (s : string) : string * string :=
  match s with
  | EmptyString => (EmptyString, EmptyString)
  | String c s' =>
      if isspace c then (EmptyString, s)
      else let (w, r) := span_word s' in (String c w, r)
  end.

(** [s.split(None, 1)]: leading whitespace is skipped, the first word ends
    at the next whitespace, and the rest, with its leading whitespace
    skipped and its trailing whitespace kept, is the second item if it is
    not empty. *)
Definition split_ws_1 (s : string) : list string :=
  match lstrip s with
  | EmptyString => []
  | s1 =>
      let (w, r) := span_word s1 in
      match lstrip r with
      | EmptyString => [w]
      | r' => [w; r']
      end
  end.

(** [s.split()]: the maximal runs of characters that are not whitespace. *)
Fixpoint words (cur : string) (s : string) : list string :=
  match s with
  | EmptyString => match cur with EmptyString => [] | _ => [cur] end
  | String c s' =>
      if isspace c
      then match cur with
           | EmptyString => words EmptyString s'
           | _ => cur :: words EmptyString s'
           end
      else words (cur +:+ String c EmptyString) s'
  end.

Definition split_ws (s : string) : list string := words EmptyString s.

(** [s.split(sep, 1)] for a one-character separator. *)
Fixpoint split_sep_1 (sep : ascii) (s : string) : list string :=
  match s with
  | EmptyString => [EmptyString]
  | String c s' =>
      if Ascii.eqb c sep then [EmptyString; s']
      else match split_sep_1 sep s' with
           | [a] => [String c a]
           | a :: rest => String c a :: rest
           | [] => []
           end
  end.

Definition has_space (s : string) : bool :=
  existsb isspace (String.list_ascii_of_string s).

Definition has_char (sep : ascii) (s : string) : bool :=
  existsb (λ c, Ascii.eqb c sep) (String.list_ascii_of_string s).

End PyStr.

(** ** Python values *)

(** What a verification function can return and what a token-info mapping
    can hold.  [VNoValue] is the one object [SecurityHandlerFactory.no_value]
    (an [object()], so it is equal to nothing else); [VNone] is [None]. *)
Inductive pyval : Type :=
| VNone
| VNoValue
| VBool (b : bool)
| VInt (z : Z)
| VStr (s : string)
| VList (l : list pyval)
| VDict (d : gmap string pyval).

(** [x is cls.no_value] and [x is None]. *)
Definition is_no_value (v : pyval) : bool :=
  match v with VNoValue => true | _ => false end.

Definition is_none (v : pyval) : bool :=
  match v with VNone => true | _ => false end.

(** Truth value of an object, as [if x] and [not x] test it. *)
Definition truthy (v : pyval) : bool :=
  match v with
  | VNone => false
  | VNoValue => true
  | VBool b => b
  | VInt z => negb (z =? 0)%Z
  | VStr s => negb (String.eqb s EmptyString)
  | VList l => match l with [] => false | _ => true end
  | VDict d => negb (bool_decide (d = ∅))
  end.

(** The name Python prints for the type of an object in an
    [AttributeError]. *)
Definition type_name (v : pyval) : string :=
  match v with
  | VNone => "NoneType"
  | VNoValue => "object"
  | VBool _ => "bool"
  | VInt _ => "int"
  | VStr _ => "str"
  | VList _ => "list"
  | VDict _ => "dict"
  end.

(** Hashable objects, the members of a [set].  [True] and [1] are one
    member, as are [False] and [0]. *)
Inductive hashable : Type :=
| HNone
| HNoValue
| HInt (z : Z)
| HStr (s : string).

#[global] Instance hashable_eq_dec : EqDecision hashable.
Proof. solve_decision. Defined.

Definition hashable_enc (h : hashable) : unit + unit + Z + string :=
  match h with
  | HNone => inl (inl (inl tt))
  | HNoValue => inl (inl (inr tt))
  | HInt z => inl (inr z)
  | HStr s => inr s
  end.

Definition hashable_dec (x : unit + unit + Z + string) : hashable :=
  match x with
  | inl (inl (inl _)) => HNone
  | inl (inl (inr _)) => HNoValue
  | inl (inr z) => HInt z
  | inr s => HStr s
  end.

#[global] Instance hashable_countable : Countable hashable.
Proof.
  apply (inj_countable' hashable_enc hashable_dec).
  by intros [].
Defined.

Definition to_hashable (v : pyval) : option hashable :=
  match v with
  | VNone => Some HNone
  | VNoValue => Some HNoValue
  | VBool b => Some (HInt (if b then 1 else 0))
  | VInt z => Some (HInt z)
  | VStr s => Some (HStr s)
  | VList _ | VDict _ => None
  end.

(** [set(l)]: a [TypeError] when a member is unhashable. *)
Definition py_set (l : list pyval) : option (gset hashable) :=
  list_to_set <$> mapM to_hashable l.

(** ** Exceptions, the world and the monad *)

(** The response object of the HTTP client, as far as the code reads it. *)
Record response : Type := Response { status_code : Z; text : string }.

(** The exceptions the code raises, with the arguments it gives them, and
    [Foreign] for whatever a library or a user function raises. *)
Inductive exn : Type :=
| OAuthProblem (description : string)
| OAuthResponseProblem (description : option string)
    (token_response : option response)
| OAuthScopeProblem (description : string) (required_scopes : list string)
    (token_scopes : pyval)
| ConnexionException (message : string)
| AttributeError (message : string)
| TypeError (message : string)
| Foreign (name : string).

Inductive result (A : Type) : Type :=
| Ok (a : A)
| Raise (e : exn).
Arguments Ok {A} a.
Arguments Raise {A} e.

(** What leaves the process: a call of a user function under a name of its
    choice, or an HTTP GET. *)
Inductive event : Type :=
| Called (name : string)
| HttpGet (url : string) (headers : list (string * string)) (timeout : Z).

(** [context] is the dict behind [request.context]: the one request object
    is shared by the verifiers, the orchestrator and the handler, so what one
    of them writes the others read. *)
Record world : Type := World {
  context : gmap string pyval;
  journal : list event
}.

Definition M (A : Type) : Type := world → result A * world.

Definition ret {A} (a : A) : M A := λ w, (Ok a, w).

Definition raise {A} (e : exn) : M A := λ w, (Raise e, w).

Definition bind {A B} (c : M A) (k : A → M B) : M B :=
  λ w, match c w with
       | (Ok a, w') => k a w'
       | (Raise e, w') => (Raise e, w')
       end.

Definition lift {A} (r : result A) : M A := λ w, (r, w).

Notation "'let!' x ':=' c 'in' k" := (bind c (λ x, k))
  (at level 10, x pattern, c at level 100, k at level 200).
Notation "'run!' c 'in' k" := (bind c (λ _, k))
  (at level 10, c at level 100, k at level 200).

(** [request.context[key] = value] *)
Definition set_context (key : string) (value : pyval) : M unit :=
  λ w, (Ok tt, World (<[key := value]> (context w)) (journal w)).

Definition emit (e : event) : M unit :=
  λ w, (Ok tt, World (context w) (journal w ++ [e])).

(** The parts of a [ConnexionRequest] that the security code reads. *)
Record request : Type := Request {
  headers : gmap string string;
  query : gmap string string
}.

(** [obj.get(key, default)]: defined on a dict, an [AttributeError] on the
    other objects. *)
Definition py_get (obj : pyval) (key : string) (default : pyval)
  : result pyval :=
  match obj with
  | VDict d => Ok (match d !! key with Some v => v | None => default end)
  | _ => Raise (AttributeError
                  ("'" +:+ type_name obj +:+ "' object has no attribute 'get'"))
  end.

(** ** The failures of the specification

    Each is the exception that the code raises at the place the
    specification describes, with the description the code gives it. *)

Definition NoAuthorization : exn :=
  OAuthProblem "No authorization token provided".

Definition InvalidHeader : exn :=
  OAuthProblem "Invalid authorization header".

Definition InvalidToken : exn :=
  OAuthResponseProblem (Some "Provided token is not valid") None.



Definition InsufficientScope (required : list string) (granted : pyval)
  : exn :=
  OAuthScopeProblem "Provided token doesn't have the required scope"
    required granted.

(** Modelled from the spec: the module [connexion/exceptions.py], which
    gives each problem class its HTTP status, is not under src/.  Section 7
    of the specification surfaces an invalid authorization header in the 400
    class, a missing authorization and a rejected credential as 401 and an
    insufficient scope as 403; it gives no status to an [OAuthProblem] with
    another description nor to the other exceptions. *)
Definition http_status (e : exn) : option Z :=
  match e with
  | OAuthProblem description =>
      if String.eqb description "Invalid authorization header"
      then Some 400%Z
      else if String.eqb description "No authorization token provided"
      then Some 401%Z
      else None
  | OAuthResponseProblem _ _ => Some 401%Z
  | OAuthScopeProblem _ _ _ => Some 403%Z
  | _ => None
  end.

(** ** The factory interface

    [verify_oauth], [verify_basic], [verify_api_key] and [verify_bearer] are
    written once, in [SecurityHandlerFactory], and reach the [check_*]
    wrappers through [cls]; [AsyncSecurityHandlerFactory] overrides the
    wrappers.  [V] is what a verification function returns: an object for the
    blocking factory, an object or a coroutine for the cooperative one. *)

Definition verifier (V : Type) : Type := request → list string → M V.

Class Factory (V : Type) : Type := {
  no_value : V;
  cls_check_bearer_token :
    (string → M V) → request → string → list string → M V;
  cls_check_basic_auth :
    (string → string → list string → M V) →
    request → string → string → list string → M V;
  cls_check_api_key :
    (string → list string → M V) →
    request → string → list string → M V;
  cls_check_oauth_func :
    (string → M V) → (list string → pyval → M V) →
    request → string → list string → M V
}.

(** [get_auth_header_value]: [None] stands for the pair [(None, None)]. *)
Definition get_auth_header_value (req : request)
  : result (option (string * string)) :=
  match headers req !! "Authorization" with
  | None => Ok None
  | Some authorization =>
      if negb (truthy (VStr authorization)) then Ok None
      else match PyStr.split_ws_1 authorization with
           | [auth_type; value] => Ok (Some (PyStr.lower auth_type, value))
           | _ => Raise (OAuthProblem "Invalid authorization header")
           end
  end.

Section SchemeVerifiers.
Context {V : Type} `{!Factory V}.

(** [base64.b64decode(s).decode('latin1')] of the standard library: the
    decoded bytes as code points, or [None] where it raises. *)
Variable b64decode : string → option string.

(** [SimpleCookie().load] of the standard library: the cookies of a raw
    [Cookie] header by name. *)
Variable cookie_load : string → result (gmap string string).

Definition verify_oauth (token_info_func : string → M V)
    (scope_validate_func : list string → pyval → M V) : verifier V :=
  λ req required_scopes,
    let! auth := lift (get_auth_header_value req) in
    match auth with
    | Some (auth_type, token) =>
        if negb (String.eqb auth_type "bearer") then ret no_value
        else cls_check_oauth_func token_info_func scope_validate_func
               req token required_scopes
    | None => ret no_value
    end.

Definition verify_basic
    (basic_info_func : string → string → list string → M V)
  : verifier V :=
  λ req required_scopes,
    let! auth := lift (get_auth_header_value req) in
    match auth with
    | Some (auth_type, user_pass) =>
        if negb (String.eqb auth_type "basic") then ret no_value
        else
          match b64decode user_pass with
          | Some decoded =>
              match PyStr.split_sep_1 ":" decoded with
              | [username; password] =>
                  cls_check_basic_auth basic_info_func
                    req username password required_scopes
              | _ => raise (OAuthProblem "Invalid authorization header")
              end
          | None => raise (OAuthProblem "Invalid authorization header")
          end
    | None => ret no_value
    end.

(** [str(cookies)] of the [Cookie] header, which is the text [None] when
    the header is absent. *)
Definition get_cookie_value (cookies : option string) (name : string)
  : result (option string) :=
  match cookie_load (match cookies with Some c => c | None => "None" end)
  with
  | Ok jar => Ok (jar !! name)
  | Raise e => Raise e
  end.

Definition verify_api_key
    (api_key_info_func : string → list string → M V)
    (loc name : string) : verifier V :=
  λ req required_scopes,
    let found : result (option (option string)) :=
      if String.eqb loc "query" then Ok (Some (query req !! name))
      else if String.eqb loc "header" then Ok (Some (headers req !! name))
      else if String.eqb loc "cookie" then
        match get_cookie_value (headers req !! "Cookie") name with
        | Ok k => Ok (Some k)
        | Raise e => Raise e
        end
      else Ok None in
    let! located := lift found in
    match located with
    | None => ret no_value
    | Some None => ret no_value
    | Some (Some api_key) =>
        cls_check_api_key api_key_info_func req api_key required_scopes
    end.

Definition verify_bearer (token_info_func : string → M V) : verifier V :=
  λ req required_scopes,
    let! auth := lift (get_auth_header_value req) in
    match auth with
    | Some (auth_type, token) =>
        if negb (String.eqb auth_type "bearer") then ret no_value
        else cls_check_bearer_token token_info_func req token required_scopes
    | None => ret no_value
    end.

End SchemeVerifiers.

(** ** The blocking factory *)

Module SecurityHandlerFactory.

Definition security_passthrough {R} (function : request → M R)
  : request → M R := function.

(** [deny] takes any arguments and raises. *)
Definition security_deny {R} (function : request → M R)
  : request → M R :=
  λ _, raise (ConnexionException "Error in security definitions").

Definition validate_scope (required_scopes : list string)
    (token_scopes : pyval) : result bool :=
  let required : gset hashable := list_to_set (HStr <$> required_scopes) in
  match token_scopes with
  | VList l =>
      match py_set l with
      | Some granted => Ok (bool_decide (required ⊆ granted))
      | None => Raise (TypeError "unhashable type")
      end
  | VStr s =>
      let granted : gset hashable :=
        list_to_set (HStr <$> PyStr.split_ws s) in
      Ok (bool_decide (required ⊆ granted))
  | _ =>
      Raise (AttributeError
               ("'" +:+ type_name token_scopes
                +:+ "' object has no attribute 'split'"))
  end.

Definition check_bearer_token (token_info_func : string → M pyval)
    (req : request) (token : string) (required_scopes : list string)
  : M pyval :=
  let! token_info := token_info_func token in
  if is_no_value token_info then ret VNoValue
  else if is_none token_info then
    raise (OAuthResponseProblem (Some "Provided token is not valid") None)
  else ret token_info.

Definition check_basic_auth
    (basic_info_func : string → string → list string → M pyval)
    (req : request) (username password : string)
    (required_scopes : list string) : M pyval :=
  let! token_info := basic_info_func username password required_scopes in
  if is_no_value token_info then ret VNoValue
  else if is_none token_info then
    raise (OAuthResponseProblem
             (Some "Provided authorization is not valid") None)
  else ret token_info.

Definition check_api_key
    (api_key_info_func : string → list string → M pyval)
    (req : request) (api_key : string) (required_scopes : list string)
  : M pyval :=
  let! token_info := api_key_info_func api_key required_scopes in
  if is_no_value token_info then ret VNoValue
  else if is_none token_info then
    raise (OAuthResponseProblem (Some "Provided apikey is not valid") None)
  else ret token_info.

Definition check_oauth_func (token_info_func : string → M pyval)
    (scope_validate_func : list string → pyval → M pyval)
    (req : request) (token : string) (required_scopes : list string)
  : M pyval :=
  let! token_info := token_info_func token in
  if is_no_value token_info then ret VNoValue
  else if is_none token_info then
    raise (OAuthResponseProblem (Some "Provided token is not valid") None)
  else
    let! fallback := lift (py_get token_info "scopes" (VStr "")) in
    let! token_scopes := lift (py_get token_info "scope" fallback) in
    let! validation := scope_validate_func required_scopes token_scopes in
    if negb (truthy validation) then
      raise (OAuthScopeProblem
               "Provided token doesn't have the required scope"
               required_scopes token_scopes)
    else ret token_info.

(** The [for] loop of [verify_security]: [token_info] is the value of the
    variable when the loop is entered. *)
Fixpoint auth_loop (auth_funcs : list (verifier pyval)) (req : request)
    (required_scopes : list string) (token_info : pyval) : M pyval :=
  match auth_funcs with
  | [] => ret token_info
  | func :: rest =>
      let! token_info := func req required_scopes in
      if negb (is_no_value token_info) then ret token_info
      else auth_loop rest req required_scopes token_info
  end.

Definition verify_security {R} (auth_funcs : list (verifier pyval))
    (required_scopes : list string) (function : request → M R)
  : request → M R :=
  λ req,
    let! token_info := auth_loop auth_funcs req required_scopes VNone in
    if is_no_value token_info then
      raise (OAuthProblem "No authorization token provided")
    else
      let! uid := lift (py_get token_info "uid" VNone) in
      let! user := lift (py_get token_info "sub" uid) in
      run! set_context "user" user in
      run! set_context "token_info" token_info in
      function req.

End SecurityHandlerFactory.

#[global] Instance blocking_factory : Factory pyval := {|
  no_value := VNoValue;
  cls_check_bearer_token := SecurityHandlerFactory.check_bearer_token;
  cls_check_basic_auth := SecurityHandlerFactory.check_basic_auth;
  cls_check_api_key := SecurityHandlerFactory.check_api_key;
  cls_check_oauth_func := SecurityHandlerFactory.check_oauth_func
|}.

(** ** The cooperative factory *)

(** What a function called under asyncio returns: an object, or a coroutine
    whose body, once driven, yields an object or one more coroutine. *)
Inductive aval : Type :=
| Plain (v : pyval)
| Coro (body : world → result aval * world).

(** [while asyncio.iscoroutine(x): x = yield from x].  The request owns its
    context, so the tasks that run while this one is suspended leave the
    world of the request as it is. *)
Fixpoint await_all (x : aval) (w : world) : result pyval * world :=
  match x with
  | Plain v => (Ok v, w)
  | Coro body =>
      match body w with
      | (Ok x', w') => await_all x' w'
      | (Raise e, w') => (Raise e, w')
      end
  end.

(** A function decorated with [asyncio.coroutine] returns, when called, a
    coroutine that has not started: its body. *)
Definition coroutine (R : Type) : Type := M R.

Module AsyncSecurityHandlerFactory.

Definition check_bearer_token (token_info_func : string → M aval)
    (req : request) (token : string) (required_scopes : list string)
  : M aval :=
  ret (Coro (
    let! token_info := token_info_func token in
    let! token_info := await_all token_info in
    if is_no_value token_info then ret (Plain VNoValue)
    else if is_none token_info then
      raise (OAuthResponseProblem (Some "Provided token is not valid") None)
    else ret (Plain token_info))).

Definition check_basic_auth
    (basic_info_func : string → string → list string → M aval)
    (req : request) (username password : string)
    (required_scopes : list string) : M aval :=
  ret (Coro (
    let! token_info := basic_info_func username password required_scopes in
    let! token_info := await_all token_info in
    if is_no_value token_info then ret (Plain VNoValue)
    else if is_none token_info then
      raise (OAuthResponseProblem
               (Some "Provided authorization is not valid") None)
    else ret (Plain token_info))).

Definition check_api_key
    (api_key_info_func : string → list string → M aval)
    (req : request) (api_key : string) (required_scopes : list string)
  : M aval :=
  ret (Coro (
    let! token_info := api_key_info_func api_key required_scopes in
    let! token_info := await_all token_info in
    if is_no_value token_info then ret (Plain VNoValue)
    else if is_none token_info then
      raise (OAuthResponseProblem
               (Some "Provided apikey is not valid") None)
    else ret (Plain token_info))).

Definition check_oauth_func (token_info_func : string → M aval)
    (scope_validate_func : list string → pyval → M aval)
    (req : request) (token : string) (required_scopes : list string)
  : M aval :=
  ret (Coro (
    let! token_info := token_info_func token in
    let! token_info := await_all token_info in
    if is_no_value token_info then ret (Plain VNoValue)
    else if is_none token_info then
      raise (OAuthResponseProblem (Some "Provided token is not valid") None)
    else
      let! fallback := lift (py_get token_info "scopes" (VStr "")) in
      let! token_scopes := lift (py_get token_info "scope" fallback) in
      let! validation := scope_validate_func required_scopes token_scopes in
      let! validation := await_all validation in
      if negb (truthy validation) then
        raise (OAuthScopeProblem
                 "Provided token doesn't have the required scope"
                 required_scopes token_scopes)
      else ret (Plain token_info))).

Fixpoint auth_loop (auth_funcs : list (verifier aval)) (req : request)
    (required_scopes : list string) (token_info : pyval) : M pyval :=
  match auth_funcs with
  | [] => ret token_info
  | func :: rest =>
      let! token_info := func req required_scopes in
      let! token_info := await_all token_info in
      if negb (is_no_value token_info) then ret token_info
      else auth_loop rest req required_scopes token_info
  end.

Definition verify_security {R} (auth_funcs : list (verifier aval))
    (required_scopes : list string) (function : request → M R)
  : request → coroutine R :=
  λ req,
    let! token_info := auth_loop auth_funcs req required_scopes VNone in
    if is_no_value token_info then
      raise (OAuthProblem "No authorization token provided")
    else
      let! uid := lift (py_get token_info "uid" VNone) in
      let! user := lift (py_get token_info "sub" uid) in
      run! set_context "user" user in
      run! set_context "token_info" token_info in
      function req.

End AsyncSecurityHandlerFactory.

#[global] Instance cooperative_factory : Factory aval := {|
  no_value := Plain VNoValue;
  cls_check_bearer_token := AsyncSecurityHandlerFactory.check_bearer_token;
  cls_check_basic_auth := AsyncSecurityHandlerFactory.check_basic_auth;
  cls_check_api_key := AsyncSecurityHandlerFactory.check_api_key;
  cls_check_oauth_func := AsyncSecurityHandlerFactory.check_oauth_func
|}.

(** ** The remote token introspectors *)

Section Remote.

(** The token-info endpoint as the HTTP client reaches it: the response to
    a GET, or the exception of the transport (a timeout, a refused
    connection). *)
Variable endpoint :
  string → list (string * string) → Z → result response.

(** [response.json()]: the body parsed, or the error of the parser. *)
Variable json : response → result pyval.

(** [self.remote_token_timeout], which the abstract factories define
    outside src/. *)
Variable remote_token_timeout : Z.

(** [session.get(url, headers=..., timeout=...)] on the pooled session. *)
Definition session_get (url : string) (hdrs : list (string * string))
    (timeout : Z) : M response :=
  run! emit (HttpGet url hdrs timeout) in
  lift (endpoint url hdrs timeout).

(** [response.ok] of requests: the status is not a 4xx or a 5xx. *)
Definition ok (r : response) : bool :=
  negb ((400 <=? status_code r)%Z && (status_code r <? 600)%Z).

Definition bearer_header (token : string) : list (string * string) :=
  [("Authorization", "Bearer " +:+ token)].

(** [SecurityHandlerFactory.get_token_info_remote] *)
Definition get_token_info_remote (token_info_url token : string)
  : M pyval :=
  let! token_request :=
    session_get token_info_url (bearer_header token) 5 in
  if negb (ok token_request) then ret VNone
  else lift (json token_request).

(** [FlaskSecurityHandlerFactory.get_token_info_remote] *)
Definition flask_get_token_info_remote (token_info_url : string)
  : string → M pyval :=
  λ token,
    let headers := bearer_header token in
    let! token_response :=
      session_get token_info_url headers remote_token_timeout in
    if negb (ok token_response) then
      raise (OAuthResponseProblem None (Some token_response))
    else lift (json token_response).

(** [AioHttpSecurityHandlerFactory.get_token_info_remote]: an [async def],
    whose [json()] is itself a coroutine.  The client session, made on the
    first call, is part of the transport. *)
Definition aiohttp_get_token_info_remote (token_info_url : string)
  : string → M aval :=
  λ token,
    ret (Coro (
      let headers := bearer_header token in
      let! token_response :=
        session_get token_info_url headers remote_token_timeout in
      if negb (status_code token_response =? 200)%Z then
        raise (OAuthResponseProblem (Some "Provided token is not valid")
                 (Some token_response))
      else
        ret (Coro (let! body := lift (json token_response) in
                   ret (Plain body))))).

End Remote.

(** [RemoteTokenRejected]: the rejection that carries the remote response. *)
Definition RemoteTokenRejected (r : response) : exn :=
  OAuthResponseProblem None (Some r).

(** ** Resolution of the verification functions *)

Section Resolution.

(** The Python callables that names resolve to. *)
Context {F : Type}.

(** [utils.get_function_from_name], outside src/: the callable of a dotted
    name, or the exception of the import. *)
Variable get_function_from_name : string → result F.

(** [os.environ] *)
Variable environ : gmap string string.

(** [a or b] on optional strings. *)
Definition or_else (a b : option string) : option string :=
  match a with
  | Some s => if truthy (VStr s) then a else b
  | None => b
  end.

Definition _get_function (security_definition : gmap string string)
    (security_definition_key environ_key : string) (default : option F)
  : result (option F) :=
  let func :=
    or_else (security_definition !! security_definition_key)
            (environ !! environ_key) in
  match func with
  | Some name =>
      if truthy (VStr name) then
        match get_function_from_name name with
        | Ok f => Ok (Some f)
        | Raise e => Raise e
        end
      else Ok default
  | None => Ok default
  end.

Definition get_scope_validate_func (validate_scope : F)
    (security_definition : gmap string string) : result (option F) :=
  _get_function security_definition "x-scopeValidateFunc"
    "SCOPEVALIDATE_FUNC" (Some validate_scope).

Definition get_basicinfo_func (security_definition : gmap string string)
  : result (option F) :=
  _get_function security_definition "x-basicInfoFunc" "BASICINFO_FUNC" None.

Definition get_apikeyinfo_func (security_definition : gmap string string)
  : result (option F) :=
  _get_function security_definition "x-apikeyInfoFunc" "APIKEYINFO_FUNC"
    None.

Definition get_bearerinfo_func (security_definition : gmap string string)
  : result (option F) :=
  _get_function security_definition "x-bearerInfoFunc" "BEARERINFO_FUNC"
    None.

End Resolution.

(** [SecurityHandlerFactory.get_tokeninfo_func].  The method takes [self],
    and the line that builds the remote introspector names [cls], which is
    neither a parameter nor a global of the module: reaching it raises
    [NameError]. *)
Section TokenInfoResolution.

Context {F : Type}.

Variable get_function_from_name : string → result F.

Variable environ : gmap string string.

Definition get_tokeninfo_func (security_definition : gmap string string)
  : result (option F) :=
  match _get_function get_function_from_name environ security_definition
          "x-tokenInfoFunc" "TOKENINFO_FUNC" None with
  | Raise e => Raise e
  | Ok (Some token_info_func) => Ok (Some token_info_func)
  | Ok None =>
      let token_info_url :=
        or_else (security_definition !! "x-tokenInfoUrl")
                (environ !! "TOKENINFO_URL") in
      match token_info_url with
      | Some url =>
          if truthy (VStr url) then Raise (Foreign "NameError")
          else Ok None
      | None => Ok None
      end
  end.

End TokenInfoResolution.

(** ** The aiohttp API: names, routes and the problem middleware *)

Module PyText.

(** [s.lstrip(c)], [s.rstrip(c)] and [s.strip(c)] for one character. *)
Fixpoint lstrip_char (c : ascii) (s : string) : string :=
  match s with
  | EmptyString => EmptyString
  | String x s' => if Ascii.eqb x c then lstrip_char c s' else s
  end.

Fixpoint rstrip_char (c : ascii) (s : string) : string :=
  match s with
  | EmptyString => EmptyString
  | String x s' =>
      match rstrip_char c s' with
      | EmptyString =>
          if Ascii.eqb x c then EmptyString else String x EmptyString
      | r => String x r
      end
  end.

Definition strip_char (c : ascii) (s : string) : string :=
  rstrip_char c (lstrip_char c s).

Definition is_alnum (c : ascii) : bool :=
  let n := N_of_ascii c in
  ((48 <=? n) && (n <=? 57) || (65 <=? n) && (n <=? 90)
   || (97 <=? n) && (n <=? 122))%N.

(** [re.sub(r'[^a-zA-Z0-9]', '_', s)] *)
Fixpoint sub_non_alnum (s : string) : string :=
  match s with
  | EmptyString => EmptyString
  | String x s' =>
      String (if is_alnum x then x else "_"%char) (sub_non_alnum s')
  end.

(** [str.upper] on one character of the Latin-1 range: a..z and the small
    letters U+00E0..U+00FE other than the division sign have a capital in
    the range; the capitals of U+00B5 and U+00FF lie outside it and that of
    U+00DF is two letters, so text with these three is not in the domain. *)
Definition upper_char (c : ascii) : ascii :=
  let n := N_of_ascii c in
  if ((97 <=? n) && (n <=? 122)
      || (224 <=? n) && (n <=? 254) && negb (n =? 247))%N
  then ascii_of_N (n - 32) else c.

Fixpoint upper (s : string) : string :=
  match s with
  | EmptyString => EmptyString
  | String c s' => String (upper_char c) (upper s')
  end.

(** [s.endswith(suffix)] *)
Definition endswith (s suffix : string) : bool :=
  let n := String.length s in
  let k := String.length suffix in
  (k <=? n) && String.eqb (String.substring (n - k) k s) suffix.

(** [s[:-k]] for a positive [k]. *)
Definition drop_last (k : nat) (s : string) : string :=
  String.substring 0 (String.length s - k) s.

End PyText.

Module AioHttpApi.

Definition normalize_string (s : string) : string :=
  PyText.sub_non_alnum (PyText.strip_char "/" s).

(** A call of [subapp.router.add_route(method, path, handler, name=...)]. *)
Record route (H : Type) : Type := Route {
  route_method : string;
  route_path : string;
  route_handler : H;
  route_name : option string
}.
Arguments Route {H}.
Arguments route_method {H}.
Arguments route_path {H}.
Arguments route_handler {H}.
Arguments route_name {H}.

(** The parts of an operation that registration reads. *)
Record operation (H : Type) : Type := Operation {
  operation_id : option string;
  function : H
}.
Arguments Operation {H}.
Arguments operation_id {H}.
Arguments function {H}.

(** [_add_operation_internal]: the routes it adds to the router, in order,
    for the API named [api_name]. *)
Definition _add_operation_internal {H} (api_name : string)
    (method path : string) (op : operation H) : list (route H) :=
  let method := PyText.upper method in
  let handler := function op in
  let endpoint_name :=
    api_name +:+ "_" +:+ normalize_string path +:+ "_"
    +:+ PyStr.lower method in
  Route method path handler (Some endpoint_name)
  :: (if negb (PyText.endswith path "/") then
        [Route method (path +:+ "/") handler
           (Some (endpoint_name +:+ "_"))]
      else []).

(** [add_openapi_yaml]: the route it adds, if any, for the handler
    [_get_openapi_yaml]. *)
Definition add_openapi_yaml {H} (openapi_spec_path : string)
    (_get_openapi_yaml : H) : list (route H) :=
  if negb (PyText.endswith openapi_spec_path "json") then []
  else
    let openapi_spec_path_yaml :=
      PyText.drop_last (String.length "json") openapi_spec_path
      +:+ "yaml" in
    [Route "GET" openapi_spec_path_yaml _get_openapi_yaml None].

(** The response of [oauth_problem_middleware]: that of the handler, or the
    [web.Response] built from a problem, whose body is the encoding of the
    text [body]. *)
Inductive middleware_response (A : Type) : Type :=
| Passed (response : A)
| Problem (status : Z) (body : string) (content_type : string).
Arguments Passed {A}.
Arguments Problem {A}.

Section Middleware.

(** [oauth_error.code] and the subclass relation of the problem classes
    come from [connexion/exceptions.py], outside src/; so does the JSON
    encoder behind [jsonifier.dumps]. *)
Variable code : exn → Z.

Variable response_problem_is_oauth_problem : bool.

Variable dumps : option string → string.

(** [isinstance(e, (OAuthProblem, OAuthScopeProblem))] *)
Definition caught (e : exn) : bool :=
  match e with
  | OAuthProblem _ => true
  | OAuthScopeProblem _ _ _ => true
  | OAuthResponseProblem _ _ => response_problem_is_oauth_problem
  | _ => false
  end.

Definition description_of (e : exn) : option string :=
  match e with
  | OAuthProblem d => Some d
  | OAuthScopeProblem d _ _ => Some d
  | OAuthResponseProblem d _ => d
  | _ => None
  end.

Definition oauth_problem_middleware {A} (req : request)
    (handler : request → coroutine A) : coroutine (middleware_response A) :=
  λ w,
    match handler req w with
    | (Ok response, w') => (Ok (Passed response), w')
    | (Raise oauth_error, w') =>
        if caught oauth_error then
          (Ok (Problem (code oauth_error)
                 (dumps (description_of oauth_error))
                 "application/problem+json"), w')
        else (Raise oauth_error, w')
    end.

End Middleware.

End AioHttpApi.

(** ** The Flask API: the request and its context *)

Module FlaskApi.

(** The parts of [flask.request] that [get_request] hands on. *)
Record flask_request : Type := FlaskRequest {
  fr_headers : gmap string string;
  fr_args : gmap string string
}.

(** [get_request]: a new empty dict becomes the context of the request
    (and the [connexion_context] that the [context] proxy reads). *)
Definition get_request (flask_request : flask_request) : M request :=
  λ w,
    let context_dict : gmap string pyval := ∅ in
    (Ok (Request (fr_headers flask_request) (fr_args flask_request)),
     World context_dict (journal w)).

(** [_get_context], behind the [context] proxy. *)
Definition _get_context : M (gmap string pyval) :=
  λ w, (Ok (context w), w).

End FlaskApi.

(** ** Predicates and sample inputs of the statements *)

Import SecurityHandlerFactory.

(** The verifiers of [auth_funcs], called in order from [w], all return the
    sentinel: the world they leave. *)
Fixpoint all_no_value (auth_funcs : list (verifier pyval)) (req : request)
    (required_scopes : list string) (w : world) : option world :=
  match auth_funcs with
  | [] => Some w
  | func :: rest =>
      match func req required_scopes w with
      | (Ok VNoValue, w1) => all_no_value rest req required_scopes w1
      | _ => None
      end
  end.

(** The subject of a token-info mapping, in the words of the specification:
    [sub], falling back to the legacy [uid], else null. *)
Definition subject (token_info : gmap string pyval) : pyval :=
  match token_info !! "sub" with
  | Some s => s
  | None => match token_info !! "uid" with Some u => u | None => VNone end
  end.

(** The granted scopes of a token-info mapping, in the words of the
    specification: [scope], falling back to the legacy [scopes], else the
    empty string. *)
Definition granted_scopes (token_info : gmap string pyval) : pyval :=
  match token_info !! "scope" with
  | Some s => s
  | None =>
      match token_info !! "scopes" with Some s => s | None => VStr "" end
  end.

(** [cls.validate_scope] as the scope-validation function of
    [check_oauth_func]. *)
Definition validate_scope_func (required_scopes : list string)
    (token_scopes : pyval) : M pyval :=
  lift (match validate_scope required_scopes token_scopes with
        | Ok b => Ok (VBool b)
        | Raise e => Raise e
        end).

(** A verifier with its pending result awaited, and a verifier whose result
    is never pending. *)
Definition awaited (f : verifier aval) : verifier pyval :=
  λ req required_scopes,
    let! x := f req required_scopes in await_all x.

Definition resolved (f : verifier pyval) : verifier aval :=
  λ req required_scopes,
    let! v := f req required_scopes in ret (Plain v).

(** A verifier that does nothing when called and returns a coroutine, which
    runs [f] when it is awaited. *)
Definition pending (f : verifier pyval) : verifier aval :=
  λ req required_scopes,
    ret (Coro (let! v := f req required_scopes in ret (Plain v))).

(** The decoder of RFC 4648 on canonical input, for the examples. *)
Module Base64.

Definition index (c : ascii) : option N :=
  let n := N_of_ascii c in
  if ((65 <=? n) && (n <=? 90))%N then Some (n - 65)%N
  else if ((97 <=? n) && (n <=? 122))%N then Some (n - 71)%N
  else if ((48 <=? n) && (n <=? 57))%N then Some (n + 4)%N
  else if (n =? 43)%N then Some 62%N
  else if (n =? 47)%N then Some 63%N
  else None.

Definition byte (n : N) : ascii := ascii_of_N (n mod 256).

Definition is_pad (c : ascii) : bool := Ascii.eqb c "=".

Fixpoint quads (l : list ascii) : option string :=
  match l with
  | [] => Some EmptyString
  | a :: b :: c :: d :: rest =>
      x ← index a; y ← index b;
      if is_pad d then
        match rest with
        | [] =>
            if is_pad c then
              Some (String (byte (x * 4 + y / 16)) EmptyString)
            else
              z ← index c;
              Some (String (byte (x * 4 + y / 16))
                      (String (byte (y * 16 + z / 4)) EmptyString))
        | _ => None
        end
      else
        z ← index c; t ← index d; tail ← quads rest;
        Some (String (byte (x * 4 + y / 16))
                (String (byte (y * 16 + z / 4))
                   (String (byte (z * 64 + t)) tail)))
  | _ => None
  end.

Definition decode (s : string) : option string :=
  quads (String.list_ascii_of_string s).

End Base64.

Definition fresh_world : world := World ∅ [].

Definition empty_request : request := Request ∅ ∅.

Definition authorization_request (value : string) : request :=
  Request {["Authorization" := value]} ∅.

(** A verifier that records its call and does not apply, and one that
    records its call and returns a result. *)
Definition skipping (name : string) : verifier pyval :=
  λ _ _, run! emit (Called name) in ret VNoValue.

Definition answering (name : string) (answer : pyval) : verifier pyval :=
  λ _ _, run! emit (Called name) in ret answer.

Definition sample_handler : request → M pyval :=
  λ _, run! emit (Called "handler") in ret (VStr "handled").

Definition alice_info : gmap string pyval :=
  {[ "sub" := VStr "alice"; "uid" := VStr "legacy"; "team" := VInt 7 ]}.

Definition bob_info : gmap string pyval :=
  {[ "uid" := VStr "bob"; "scopes" := VList [VStr "read"; VStr "write"] ]}.

Definition rejecting_endpoint (url : string) (hdrs : list (string * string))
    (timeout : Z) : result response :=
  Ok (Response 401 "denied").

Definition accepting_endpoint (url : string) (hdrs : list (string * string))
    (timeout : Z) : result response :=
  Ok (Response 200 "{}").

Definition sample_json (r : response) : result pyval := Ok (VDict alice_info).



Definition as_str (v : pyval) : option string :=
  match v with VStr s => Some s | _ => None end.

(** The normalized granted set, in the words of the specification: a string
    is split on whitespace, a sequence of strings is converted to a set. *)
Definition granted_set (token_scopes : pyval) : option (gset string) :=
  match token_scopes with
  | VStr s => Some (list_to_set (PyStr.split_ws s))
  | VList l => list_to_set <$> mapM as_str l
  | _ => None
  end.

(** A verification function that accepts every credential with an empty
    mapping, and one that knows two users. *)
Definition empty_info_func : string → M pyval := λ _, ret (VDict ∅).

Definition sample_basic_info_func (username password : string)
    (required_scopes : list string) : M pyval :=
  run! emit (Called "basic_info") in
  if String.eqb username "alice" && String.eqb password "secret"
  then ret (VDict {[ "sub" := VStr "alice" ]})
  else ret VNone.

Definition sample_token_info_func (token : string) : M pyval :=
  run! emit (Called "token_info") in
  if String.eqb token "xyz" then ret (VDict bob_info)
  else if String.eqb token "other" then ret VNoValue
  else ret VNone.

(** A text of whitespace only. *)
Definition blank (s : string) : bool :=
  forallb PyStr.isspace (String.list_ascii_of_string s).

(** A text of the characters of an endpoint name: letters and digits of
    ASCII and the underscore. *)
Definition name_char (c : ascii) : bool :=
  PyText.is_alnum c || Ascii.eqb c "_".

Definition name_text (s : string) : bool :=
  forallb name_char (String.list_ascii_of_string s).

(** A cookie parser for the examples: it knows headers of one pair. *)
Definition one_pair_cookie_load (raw : string)
  : result (gmap string string) :=
  match PyStr.split_sep_1 "=" raw with
  | [k; v] => Ok {[ k := v ]}
  | _ => Ok ∅
  end.

Definition sample_api_key_info_func (api_key : string)
    (required_scopes : list string) : M pyval :=
  run! emit (Called "api_key_info") in
  ret (VDict {[ "sub" := VStr api_key ]}).

Definition no_content_endpoint (url : string)
    (hdrs : list (string * string)) (timeout : Z) : result response :=
  Ok (Response 204 "").

Definition sample_resolver (name : string) : result (string → M pyval) :=
  if String.eqb name "app.token_info" then Ok sample_token_info_func
  else Raise (Foreign "ImportError").

(** The status of a problem and an encoder for the examples. *)
Definition sample_code (e : exn) : Z :=
  match e with
  | OAuthScopeProblem _ _ _ => 403
  | _ => 401
  end.

Definition sample_dumps (description : option string) : string :=
  match description with
  | Some d => d
  | None => "null"
  end.

(** Unfolds the operations of the monad. *)
Ltac unfold_monad :=
  unfold bind, ret, raise, lift, set_context, emit in *.

(** ** Checks of the embedding on concrete inputs *)

Example split_bearer :
  PyStr.split_ws_1 "Bearer  xyz abc " = ["Bearer"; "xyz abc "].
Proof. reflexivity. Qed.

Example split_one_word : PyStr.split_ws_1 "Bearer " = ["Bearer"].
Proof. reflexivity. Qed.

Example split_words :
  PyStr.split_ws "  read  write admin " = ["read"; "write"; "admin"].
Proof. reflexivity. Qed.

Example split_colon :
  PyStr.split_sep_1 ":" "alice:se:cret" = ["alice"; "se:cret"].
Proof. reflexivity. Qed.

Example decode_alice :
  Base64.decode "YWxpY2U6c2VjcmV0" = Some "alice:secret".
Proof. reflexivity. Qed.

Example decode_padded : Base64.decode "YTpi" = Some "a:b"
  ∧ Base64.decode "YTo=" = Some "a:" ∧ Base64.decode "YQ==" = Some "a"
  ∧ Base64.decode "YQ=" = None.
Proof. repeat split; reflexivity. Qed.

Example header_lowered :
  get_auth_header_value (authorization_request "BeArEr xyz")
  = Ok (Some ("bearer", "xyz")).
Proof. reflexivity. Qed.

(** ** The orchestrator *)

Lemma auth_loop_prefix pre rest req sc t w w1 :
  all_no_value pre req sc w = Some w1 →
  auth_loop (pre ++ rest) req sc t w
  = auth_loop rest req sc (match pre with [] => t | _ => VNoValue end) w1.
Proof.
  revert t w. induction pre as [|f pre IH]; intros t w Hpre; simpl in *.
  - by inversion Hpre.
  - unfold bind at 1.
    destruct (f req sc w) as [[v|e] w0] eqn:Hf; [|done].
    destruct v; try done. simpl.
    rewrite (IH VNoValue w0 Hpre). by destruct pre.
Qed.

Lemma auth_loop_first f post req sc t w :
  fst (f req sc w) ≠ Ok VNoValue →
  auth_loop (f :: post) req sc t w = f req sc w.
Proof.
  intros Hf. simpl. unfold bind.
  destruct (f req sc w) as [[v|e] w0]; [|done].
  destruct v; simpl in *; done.
Qed.

Lemma auth_loop_all_no_value fs req sc t w w' :
  fs ≠ [] →
  all_no_value fs req sc w = Some w' →
  auth_loop fs req sc t w = (Ok VNoValue, w').
Proof.
  intros Hne Hall.
  rewrite <- (app_nil_r fs), (auth_loop_prefix _ _ _ _ _ _ _ Hall).
  by destruct fs.
Qed.

Lemma verify_security_unfold {R} fs sc (function : request → M R) req w :
  verify_security fs sc function req w
  = match auth_loop fs req sc VNone w with
    | (Ok token_info, w1) =>
        if is_no_value token_info then
          (Raise (OAuthProblem "No authorization token provided"), w1)
        else
          match py_get token_info "uid" VNone with
          | Ok uid =>
              match py_get token_info "sub" uid with
              | Ok user =>
                  function req
                    (World (<["token_info" := token_info]>
                              (<["user" := user]> (context w1)))
                       (journal w1))
              | Raise e => (Raise e, w1)
              end
          | Raise e => (Raise e, w1)
          end
    | (Raise e, w1) => (Raise e, w1)
    end.
Proof.
  unfold verify_security. unfold bind at 1.
  destruct (auth_loop fs req sc VNone w) as [[v|e] w1]; [|done].
  destruct (is_no_value v); [done|].
  unfold_monad.
  destruct (py_get v "uid" VNone) as [uid|e]; [|done].
  by destruct (py_get v "sub" uid) as [user|e].
Qed.

(** When at least one verifier is configured and every verifier, called in
    order on the request, returns the NoValue sentinel, the wrapper of
    [verify_security] raises NoAuthorization, whose status is 401, and
    leaves the world as the verifiers left it, whatever the handler is: the
    handler is not invoked. *)
Lemma verify_security_no_authorization {R} fs sc
    (function : request → M R) req w w' :
  fs ≠ [] →
  all_no_value fs req sc w = Some w' →
  verify_security fs sc function req w = (Raise NoAuthorization, w')
  ∧ http_status NoAuthorization = Some 401%Z.
Proof.
  intros Hne Hall. split; [|done].
  rewrite verify_security_unfold.
  by rewrite (auth_loop_all_no_value _ _ _ _ _ _ Hne Hall).
Qed.

Lemma verify_security_no_authorization_witness :
  verify_security [skipping "bearer"; skipping "apiKey"] ["read"]
    sample_handler empty_request fresh_world
  = (Raise NoAuthorization,
     World ∅ [Called "bearer"; Called "apiKey"])
  ∧ http_status NoAuthorization = Some 401%Z.
Proof.
  apply (verify_security_no_authorization
           [skipping "bearer"; skipping "apiKey"] ["read"] sample_handler
           empty_request fresh_world).
  - discriminate.
  - reflexivity.
Defined.

(** C1.  The code misses the claim on the empty list of verifiers.  There
    every configured verifier (there is none) returns NoValue, and the
    wrapper, which reaches [token_info.get] with the initial null of
    [token_info], raises an [AttributeError] where the claim has
    NoAuthorization; the handler is not invoked. *)
Theorem verify_security_empty_list_misses_no_authorization :
  all_no_value [] empty_request [] fresh_world = Some fresh_world
  ∧ verify_security [] [] sample_handler empty_request fresh_world
    = (Raise (AttributeError "'NoneType' object has no attribute 'get'"),
       fresh_world)
  ∧ fst (verify_security [] [] sample_handler empty_request fresh_world)
    ≠ Raise NoAuthorization
  ∧ http_status NoAuthorization = Some 401%Z.
Proof.
  split; [reflexivity|]. split; [reflexivity|]. split; [|reflexivity].
  vm_compute. discriminate.
Qed.

(** C10.  With an empty list of verifiers the loop body never runs:
    [token_info] keeps its initial null value, which is not the sentinel, the
    NoAuthorization branch is skipped, and the lookup of the subject on the
    null value raises an [AttributeError]; no request gets NoAuthorization,
    nothing is written into the context and the handler is not invoked. *)
Theorem verify_security_no_verifiers {R} sc (function : request → M R)
    req w :
  auth_loop [] req sc VNone w = (Ok VNone, w)
  ∧ is_no_value VNone = false
  ∧ verify_security [] sc function req w
    = (Raise (AttributeError "'NoneType' object has no attribute 'get'"), w)
  ∧ fst (verify_security [] sc function req w) ≠ Raise NoAuthorization.
Proof.
  rewrite verify_security_unfold. simpl. by repeat split.
Qed.

(** C2.  When the verifiers before [f] return NoValue and [f] returns a
    token-info mapping, the wrapper writes [context['user']], which is the
    [sub] of the mapping if that key is present and else its [uid], writes
    [context['token_info']], which is the whole mapping unchanged, and then
    returns what the handler returns on the request in that world.  A mapping
    with [uid] and no [sub] installs its [uid] the way the other installs its
    [sub]. *)
Theorem verify_security_installs_identity {R} pre f post sc
    (function : request → M R) req w w1 w2 token_info :
  all_no_value pre req sc w = Some w1 →
  f req sc w1 = (Ok (VDict token_info), w2) →
  let installed :=
    World (<["token_info" := VDict token_info]>
             (<["user" := subject token_info]> (context w2)))
      (journal w2) in
  verify_security (pre ++ f :: post) sc function req w
  = function req installed
  ∧ context installed !! "user" = Some (subject token_info)
  ∧ context installed !! "token_info" = Some (VDict token_info)
  ∧ (∀ s, token_info !! "sub" = Some s → subject token_info = s)
  ∧ (∀ u, token_info !! "sub" = None → token_info !! "uid" = Some u →
          subject token_info = u).
Proof.
  intros Hpre Hf installed. repeat split.
  - rewrite verify_security_unfold, (auth_loop_prefix _ _ _ _ _ _ _ Hpre).
    rewrite auth_loop_first by (rewrite Hf; discriminate).
    rewrite Hf. simpl. unfold installed, subject.
    by destruct (token_info !! "uid"), (token_info !! "sub").
  - unfold installed. simpl.
    rewrite lookup_insert_ne by done. by rewrite lookup_insert_eq.
  - unfold installed. simpl. by rewrite lookup_insert_eq.
  - intros s Hs. unfold subject. by rewrite Hs.
  - intros u Hs Hu. unfold subject. by rewrite Hs, Hu.
Qed.

Lemma verify_security_installs_identity_witness :
  verify_security
    ([skipping "bearer"] ++ answering "basic" (VDict bob_info)
       :: [answering "apiKey" (VDict alice_info)])
    [] sample_handler empty_request fresh_world
  = (Ok (VStr "handled"),
     World {[ "user" := VStr "bob"; "token_info" := VDict bob_info ]}
       [Called "bearer"; Called "basic"; Called "handler"]).
Proof.
  refine (eq_trans
            (proj1 (verify_security_installs_identity
                      [skipping "bearer"]
                      (answering "basic" (VDict bob_info))
                      [answering "apiKey" (VDict alice_info)] []
                      sample_handler empty_request fresh_world
                      (World ∅ [Called "bearer"])
                      (World ∅ [Called "bearer"; Called "basic"])
                      bob_info eq_refl eq_refl)) _).
  vm_compute. reflexivity.
Defined.

Lemma first_match_blocking {R} pre f post sc
    (function : request → M R) req w w1 :
  all_no_value pre req sc w = Some w1 →
  fst (f req sc w1) ≠ Ok VNoValue →
  auth_loop (pre ++ f :: post) req sc VNone w = f req sc w1
  ∧ verify_security (pre ++ f :: post) sc function req w
    = verify_security [f] sc function req w1
  ∧ verify_security (pre ++ f :: post) sc function req w
    = verify_security (pre ++ [f]) sc function req w.
Proof.
  intros Hpre Hf.
  assert (Hloop : ∀ rest, auth_loop (pre ++ f :: rest) req sc VNone w
                          = f req sc w1).
  { intros rest. rewrite (auth_loop_prefix _ _ _ _ _ _ _ Hpre).
    by apply auth_loop_first. }
  repeat split.
  - apply Hloop.
  - rewrite !verify_security_unfold, Hloop.
    by rewrite (auth_loop_first f [] req sc VNone w1 Hf).
  - by rewrite !verify_security_unfold, !Hloop.
Qed.

(** ** The two factories *)

Lemma async_auth_loop_awaited afs req sc t w :
  AsyncSecurityHandlerFactory.auth_loop afs req sc t w
  = auth_loop (awaited <$> afs) req sc t w.
Proof.
  revert t w. induction afs as [|f afs IH]; intros t w; [done|].
  simpl. unfold awaited at 1. unfold bind.
  destruct (f req sc w) as [[x|e] w1]; [|done].
  destruct (await_all x w1) as [[v|e] w2]; [|done].
  destruct (is_no_value v); [apply IH|done].
Qed.

Lemma auth_loop_resolved fs req sc t w :
  auth_loop (awaited <$> (resolved <$> fs)) req sc t w
  = auth_loop fs req sc t w.
Proof.
  revert t w. induction fs as [|f fs IH]; intros t w; [done|].
  simpl. unfold awaited at 1, resolved at 1. unfold bind, ret.
  destruct (f req sc w) as [[v|e] w1]; [|done].
  simpl. destruct (is_no_value v); [apply IH|done].
Qed.

Lemma async_verify_security_awaited {R} afs sc
    (function : request → M R) req w :
  AsyncSecurityHandlerFactory.verify_security afs sc function req w
  = verify_security (awaited <$> afs) sc function req w.
Proof.
  rewrite verify_security_unfold, <- async_auth_loop_awaited.
  unfold AsyncSecurityHandlerFactory.verify_security. unfold bind at 1.
  destruct (AsyncSecurityHandlerFactory.auth_loop afs req sc VNone w)
    as [[v|e] w1]; [|done].
  destruct (is_no_value v); [done|]. unfold_monad.
  destruct (py_get v "uid" VNone) as [uid|e]; [|done].
  by destruct (py_get v "sub" uid).
Qed.

(** C3.  In the blocking and in the cooperative orchestrator alike, the
    verifiers are called in the order of the list, each in the world the
    one before it left (in the cooperative one, after the result of the one
    before it has been awaited).  When the verifiers before [f] have
    returned NoValue and [f] returns another value or raises, the loop ends
    with the outcome of [f] in the world [f] left, and the wrapper behaves
    as on the list that ends at [f]: the verifiers after [f] are not
    called. *)
Theorem verify_security_first_match_wins {R} sc
    (function : request → M R) req w w1 :
  (∀ pre f post,
     all_no_value pre req sc w = Some w1 →
     fst (f req sc w1) ≠ Ok VNoValue →
     auth_loop (pre ++ f :: post) req sc VNone w = f req sc w1
     ∧ verify_security (pre ++ f :: post) sc function req w
       = verify_security [f] sc function req w1
     ∧ verify_security (pre ++ f :: post) sc function req w
       = verify_security (pre ++ [f]) sc function req w)
  ∧ (∀ pre f post,
       all_no_value (awaited <$> pre) req sc w = Some w1 →
       fst (awaited f req sc w1) ≠ Ok VNoValue →
       AsyncSecurityHandlerFactory.auth_loop (pre ++ f :: post)
         req sc VNone w
       = awaited f req sc w1
       ∧ AsyncSecurityHandlerFactory.verify_security (pre ++ f :: post)
           sc function req w
         = AsyncSecurityHandlerFactory.verify_security [f]
             sc function req w1
       ∧ AsyncSecurityHandlerFactory.verify_security (pre ++ f :: post)
           sc function req w
         = AsyncSecurityHandlerFactory.verify_security (pre ++ [f])
             sc function req w).
Proof.
  split.
  - intros pre f post. apply first_match_blocking.
  - intros pre f post Hpre Hf.
    destruct (first_match_blocking (awaited <$> pre) (awaited f)
                (awaited <$> post) sc function req w w1 Hpre Hf)
      as (Hloop & Hone & Hcut).
    rewrite async_auth_loop_awaited, !async_verify_security_awaited.
    rewrite !fmap_app, !fmap_cons. simpl. by repeat split.
Qed.

Lemma verify_security_first_match_wins_witness :
  (verify_security
     ([skipping "bearer"] ++ answering "basic" (VDict bob_info)
        :: [answering "apiKey" (VDict alice_info)])
     [] sample_handler empty_request fresh_world
   = verify_security [answering "basic" (VDict bob_info)]
       [] sample_handler empty_request (World ∅ [Called "bearer"])
   ∧ journal (snd (verify_security
        ([skipping "bearer"] ++ answering "basic" (VDict bob_info)
           :: [answering "apiKey" (VDict alice_info)])
        [] sample_handler empty_request fresh_world))
     = [Called "bearer"; Called "basic"; Called "handler"])
  ∧ (AsyncSecurityHandlerFactory.verify_security
       ([pending (skipping "bearer")]
          ++ pending (answering "basic" (VDict bob_info))
          :: [pending (answering "apiKey" (VDict alice_info))])
       [] sample_handler empty_request fresh_world
     = AsyncSecurityHandlerFactory.verify_security
         [pending (answering "basic" (VDict bob_info))]
         [] sample_handler empty_request (World ∅ [Called "bearer"])
     ∧ journal (snd (AsyncSecurityHandlerFactory.verify_security
          ([pending (skipping "bearer")]
             ++ pending (answering "basic" (VDict bob_info))
             :: [pending (answering "apiKey" (VDict alice_info))])
          [] sample_handler empty_request fresh_world))
       = [Called "bearer"; Called "basic"; Called "handler"]).
Proof.
  split; split.
  - apply (proj1 (verify_security_first_match_wins [] sample_handler
                    empty_request fresh_world (World ∅ [Called "bearer"]))
             [skipping "bearer"] (answering "basic" (VDict bob_info))
             [answering "apiKey" (VDict alice_info)]).
    + reflexivity.
    + vm_compute. discriminate.
  - vm_compute. reflexivity.
  - apply (proj2 (verify_security_first_match_wins [] sample_handler
                    empty_request fresh_world (World ∅ [Called "bearer"]))
             [pending (skipping "bearer")]
             (pending (answering "basic" (VDict bob_info)))
             [pending (answering "apiKey" (VDict alice_info))]).
    + reflexivity.
    + vm_compute. discriminate.
  - vm_compute. reflexivity.
Defined.

Lemma check_bearer_token_awaited f req token sc w :
  (let! x := AsyncSecurityHandlerFactory.check_bearer_token
               f req token sc in await_all x) w
  = check_bearer_token (λ t, let! x := f t in await_all x)
      req token sc w.
Proof.
  unfold AsyncSecurityHandlerFactory.check_bearer_token, check_bearer_token.
  unfold_monad. simpl.
  destruct (f token w) as [[x|e] w1]; [|done].
  destruct (await_all x w1) as [[v|e] w2]; [|done].
  by destruct v.
Qed.

Lemma check_basic_auth_awaited f req username password sc w :
  (let! x := AsyncSecurityHandlerFactory.check_basic_auth
               f req username password sc in await_all x) w
  = check_basic_auth (λ u p s, let! x := f u p s in await_all x)
      req username password sc w.
Proof.
  unfold AsyncSecurityHandlerFactory.check_basic_auth, check_basic_auth.
  unfold_monad. simpl.
  destruct (f username password sc w) as [[x|e] w1]; [|done].
  destruct (await_all x w1) as [[v|e] w2]; [|done].
  by destruct v.
Qed.

Lemma check_api_key_awaited f req api_key sc w :
  (let! x := AsyncSecurityHandlerFactory.check_api_key
               f req api_key sc in await_all x) w
  = check_api_key (λ k s, let! x := f k s in await_all x)
      req api_key sc w.
Proof.
  unfold AsyncSecurityHandlerFactory.check_api_key, check_api_key.
  unfold_monad. simpl.
  destruct (f api_key sc w) as [[x|e] w1]; [|done].
  destruct (await_all x w1) as [[v|e] w2]; [|done].
  by destruct v.
Qed.

Lemma check_oauth_func_awaited f g req token sc w :
  (let! x := AsyncSecurityHandlerFactory.check_oauth_func
               f g req token sc in await_all x) w
  = check_oauth_func (λ t, let! x := f t in await_all x)
      (λ r s, let! x := g r s in await_all x) req token sc w.
Proof.
  unfold AsyncSecurityHandlerFactory.check_oauth_func, check_oauth_func.
  unfold_monad. simpl.
  destruct (f token w) as [[x|e] w1]; [|done].
  destruct (await_all x w1) as [[v|e] w2]; [|done].
  destruct (is_no_value v); [done|].
  destruct (is_none v); [done|].
  destruct (py_get v "scopes" (VStr "")) as [fb|e]; [|done].
  destruct (py_get v "scope" fb) as [ts|e]; [|done].
  destruct (g sc ts w2) as [[y|e] w3]; [|done].
  destruct (await_all y w3) as [[b|e] w4]; [|done].
  by destruct (truthy b).
Qed.

(** C9.  The cooperative orchestrator is the blocking orchestrator on the
    verifiers with their pending results awaited: on every request and world
    both give the same result or raise the same exception and leave the same
    context, and on verifiers whose results are never pending the two
    coincide.  Each cooperative [check_*] wrapper, once awaited, is the
    blocking wrapper on the awaited verification function. *)
Theorem cooperative_refines_blocking {R} :
  (∀ afs sc (function : request → M R) req w,
     AsyncSecurityHandlerFactory.verify_security afs sc function req w
     = verify_security (awaited <$> afs) sc function req w)
  ∧ (∀ fs sc (function : request → M R) req w,
       AsyncSecurityHandlerFactory.verify_security (resolved <$> fs)
         sc function req w
       = verify_security fs sc function req w)
  ∧ (∀ f req token sc w,
       (let! x := AsyncSecurityHandlerFactory.check_bearer_token
                    f req token sc in await_all x) w
       = check_bearer_token (λ t, let! x := f t in await_all x)
           req token sc w)
  ∧ (∀ f req username password sc w,
       (let! x := AsyncSecurityHandlerFactory.check_basic_auth
                    f req username password sc in await_all x) w
       = check_basic_auth
           (λ u p s, let! x := f u p s in await_all x)
           req username password sc w)
  ∧ (∀ f req api_key sc w,
       (let! x := AsyncSecurityHandlerFactory.check_api_key
                    f req api_key sc in await_all x) w
       = check_api_key (λ k s, let! x := f k s in await_all x)
           req api_key sc w)
  ∧ (∀ f g req token sc w,
       (let! x := AsyncSecurityHandlerFactory.check_oauth_func
                    f g req token sc in await_all x) w
       = check_oauth_func (λ t, let! x := f t in await_all x)
           (λ r s, let! x := g r s in await_all x)
           req token sc w).
Proof.
  split; [|split; [|split; [|split; [|split]]]].
  - intros afs sc function req w.
    rewrite verify_security_unfold, <- async_auth_loop_awaited.
    unfold AsyncSecurityHandlerFactory.verify_security. unfold bind at 1.
    destruct (AsyncSecurityHandlerFactory.auth_loop afs req sc VNone w)
      as [[v|e] w1]; [|done].
    destruct (is_no_value v); [done|]. unfold_monad.
    destruct (py_get v "uid" VNone) as [uid|e]; [|done].
    by destruct (py_get v "sub" uid).
  - intros fs sc function req w.
    rewrite !verify_security_unfold, <- (auth_loop_resolved fs).
    rewrite <- async_auth_loop_awaited.
    unfold AsyncSecurityHandlerFactory.verify_security. unfold bind at 1.
    destruct (AsyncSecurityHandlerFactory.auth_loop (resolved <$> fs)
                req sc VNone w) as [[v|e] w1]; [|done].
    destruct (is_no_value v); [done|]. unfold_monad.
    destruct (py_get v "uid" VNone) as [uid|e]; [|done].
    by destruct (py_get v "sub" uid).
  - apply check_bearer_token_awaited.
  - apply check_basic_auth_awaited.
  - apply check_api_key_awaited.
  - apply check_oauth_func_awaited.
Qed.

(** ** The scheme verifiers *)


Lemma check_oauth_func_mapping f g req token sc w token_info w1 :
  f token w = (Ok (VDict token_info), w1) →
  check_oauth_func f g req token sc w
  = match g sc (granted_scopes token_info) w1 with
    | (Ok validation, w2) =>
        (if truthy validation then Ok (VDict token_info)
         else Raise (InsufficientScope sc (granted_scopes token_info)), w2)
    | (Raise e, w2) => (Raise e, w2)
    end.
Proof.
  intros Hf. unfold check_oauth_func. unfold_monad. rewrite Hf. simpl.
  unfold granted_scopes.
  destruct (token_info !! "scope") as [s|];
    destruct (token_info !! "scopes") as [s'|];
    (destruct (g sc _ w1) as [[b|e] w2]; [by destruct (truthy b)|done]).
Qed.




(** ** Scope validation *)

Lemma mapM_as_str_hashable (l : list pyval) (strs : list string) :
  mapM as_str l = Some strs → mapM to_hashable l = Some (HStr <$> strs).
Proof.
  rewrite !mapM_Some. induction 1 as [|v s l strs Hv _ IH]; simpl.
  - constructor.
  - constructor; [|done]. destruct v; simpl in *; by simplify_eq.
Qed.

Lemma subseteq_HStr (a b : list string) :
  list_to_set (HStr <$> a) ⊆@{gset hashable} list_to_set (HStr <$> b)
  ↔ list_to_set a ⊆@{gset string} list_to_set b.
Proof.
  split; intros Hsub x.
  - rewrite !elem_of_list_to_set. intros Hx.
    specialize (Hsub (HStr x)). rewrite !elem_of_list_to_set in Hsub.
    rewrite !list_elem_of_fmap in Hsub.
    destruct Hsub as (y & Hy & Hin); [by exists x|]. by simplify_eq.
  - rewrite !elem_of_list_to_set, !list_elem_of_fmap.
    intros (y & -> & Hy). exists y. split; [done|].
    specialize (Hsub y). rewrite !elem_of_list_to_set in Hsub. auto.
Qed.

Lemma validate_scope_granted required token_scopes G :
  granted_set token_scopes = Some G →
  validate_scope required token_scopes
  = Ok (bool_decide (list_to_set required ⊆ G)).
Proof.
  destruct token_scopes; simpl; try done.
  - intros [= <-]. f_equal. apply bool_decide_ext, subseteq_HStr.
  - destruct (mapM as_str l) as [strs|] eqn:Hstrs; [|done].
    intros [= <-]. unfold py_set.
    rewrite (mapM_as_str_hashable _ _ Hstrs). simpl.
    f_equal. apply bool_decide_ext, subseteq_HStr.
Qed.

(** C5.  For granted scopes given as a whitespace-delimited string or as a
    list of strings, [validate_scope] returns true if and only if the set of
    the required scopes is included in the normalized granted set, so that a
    validation that succeeds still succeeds when scopes are added to the
    grant and fails as soon as a required scope is missing from it.
    [check_oauth_func] reads the granted scopes from [scope], falling back
    to [scopes], returns the token info when the validation is true and
    raises InsufficientScope, with the required scopes and the granted
    scopes, exactly when it is false. *)
Theorem validate_scope_subset :
  (∀ required token_scopes G,
     granted_set token_scopes = Some G →
     validate_scope required token_scopes
     = Ok (bool_decide (list_to_set required ⊆ G))
     ∧ (validate_scope required token_scopes = Ok true
        ↔ list_to_set required ⊆ G))
  ∧ (∀ required token_scopes token_scopes' G G',
       granted_set token_scopes = Some G →
       granted_set token_scopes' = Some G' →
       G ⊆ G' →
       validate_scope required token_scopes = Ok true →
       validate_scope required token_scopes' = Ok true)
  ∧ (∀ required token_scopes G r,
       granted_set token_scopes = Some G →
       r ∈ required → r ∉ G →
       validate_scope required token_scopes = Ok false)
  ∧ (∀ f req token required w token_info w1 G,
       f token w = (Ok (VDict token_info), w1) →
       granted_set (granted_scopes token_info) = Some G →
       check_oauth_func f validate_scope_func req token required w
       = (if bool_decide (list_to_set required ⊆ G)
          then Ok (VDict token_info)
          else Raise (InsufficientScope required
                        (granted_scopes token_info)),
          w1))
  ∧ (∀ token_info s,
       token_info !! "scope" = Some s → granted_scopes token_info = s)
  ∧ (∀ token_info s,
       token_info !! "scope" = None → token_info !! "scopes" = Some s →
       granted_scopes token_info = s).
Proof.
  split; [|split; [|split; [|split; [|split]]]].
  - intros required token_scopes G HG.
    rewrite (validate_scope_granted _ _ _ HG). split; [done|].
    split.
    + intros [= Hb]. by apply bool_decide_eq_true in Hb.
    + intros Hsub. f_equal. by apply bool_decide_eq_true.
  - intros required token_scopes token_scopes' G G' HG HG' Hsub.
    rewrite (validate_scope_granted _ _ _ HG).
    rewrite (validate_scope_granted _ _ _ HG').
    intros [= Hb]. apply bool_decide_eq_true in Hb.
    f_equal. apply bool_decide_eq_true. set_solver.
  - intros required token_scopes G r HG Hr Hnot.
    rewrite (validate_scope_granted _ _ _ HG). f_equal.
    apply bool_decide_eq_false. intros Hsub. apply Hnot, Hsub.
    by apply elem_of_list_to_set.
  - intros f req token required w token_info w1 G Hf HG.
    rewrite (check_oauth_func_mapping _ _ _ _ _ _ _ _ Hf).
    unfold validate_scope_func, lift.
    rewrite (validate_scope_granted _ _ _ HG). simpl.
    by destruct (bool_decide _).
  - intros token_info s Hs. unfold granted_scopes. by rewrite Hs.
  - intros token_info s Hs Hs'. unfold granted_scopes. by rewrite Hs, Hs'.
Qed.

Lemma validate_scope_subset_witness :
  validate_scope ["read"; "write"] (VStr "write  admin read")
  = Ok (bool_decide (list_to_set ["read"; "write"]
                     ⊆@{gset string} {["write"; "admin"; "read"]}))
  ∧ validate_scope ["read"; "write"] (VList [VStr "read"]) = Ok false
  ∧ check_oauth_func sample_token_info_func validate_scope_func
      empty_request "xyz" ["write"] fresh_world
    = (Ok (VDict bob_info), World ∅ [Called "token_info"]).
Proof.
  split; [|split].
  - exact (eq_trans
             (proj1 (proj1 validate_scope_subset
                       ["read"; "write"] (VStr "write  admin read")
                       (list_to_set ["write"; "admin"; "read"]) eq_refl))
             eq_refl).
  - apply (proj1 (proj2 (proj2 validate_scope_subset))
             ["read"; "write"] (VList [VStr "read"])
             (list_to_set ["read"]) "write" eq_refl).
    + apply list_elem_of_In. simpl. tauto.
    + rewrite elem_of_list_to_set, list_elem_of_In. simpl.
      intros [Hw|[]]. discriminate Hw.
  - exact (eq_trans
             (proj1 (proj2 (proj2 (proj2 validate_scope_subset)))
                sample_token_info_func empty_request "xyz" ["write"]
                fresh_world bob_info (World ∅ [Called "token_info"])
                (list_to_set ["read"; "write"]) eq_refl eq_refl)
             eq_refl).
Defined.

(** ** Credential extraction *)

Lemma lstrip_no_space s : PyStr.has_space s = false → PyStr.lstrip s = s.
Proof.
  unfold PyStr.has_space. destruct s as [|c s]; simpl; [done|].
  by destruct (PyStr.isspace c).
Qed.

Lemma span_word_no_space s :
  PyStr.has_space s = false → PyStr.span_word s = (s, EmptyString).
Proof.
  unfold PyStr.has_space. induction s as [|c s IH]; simpl; [done|].
  destruct (PyStr.isspace c); simpl; [done|].
  intros Hs. by rewrite (IH Hs).
Qed.

Lemma split_ws_1_no_space s :
  s ≠ EmptyString → PyStr.has_space s = false → PyStr.split_ws_1 s = [s].
Proof.
  intros Hne Hs. unfold PyStr.split_ws_1.
  rewrite (lstrip_no_space _ Hs). destruct s as [|c s]; [done|].
  by rewrite (span_word_no_space _ Hs).
Qed.

Lemma split_sep_1_no_sep sep s :
  PyStr.has_char sep s = false → PyStr.split_sep_1 sep s = [s].
Proof.
  unfold PyStr.has_char. induction s as [|c s IH]; simpl; [done|].
  destruct (Ascii.eqb c sep); simpl; [done|].
  intros Hs. by rewrite (IH Hs).
Qed.

Lemma split_sep_1_first sep a b :
  PyStr.has_char sep a = false →
  PyStr.split_sep_1 sep (a +:+ String sep b) = [a; b].
Proof.
  unfold PyStr.has_char. induction a as [|c a IH]; simpl.
  - by rewrite Ascii.eqb_refl.
  - destruct (Ascii.eqb c sep); simpl; [done|].
    intros Ha. by rewrite (IH Ha).
Qed.

Lemma truthy_str s : truthy (VStr s) = true ↔ s ≠ EmptyString.
Proof.
  simpl. rewrite negb_true_iff. split.
  - intros Hs ->. by rewrite String.eqb_refl in Hs.
  - intros Hs. by apply String.eqb_neq.
Qed.

Lemma get_auth_header_value_present req s :
  headers req !! "Authorization" = Some s →
  s ≠ EmptyString →
  get_auth_header_value req
  = match PyStr.split_ws_1 s with
    | [auth_type; value] => Ok (Some (PyStr.lower auth_type, value))
    | _ => Raise InvalidHeader
    end.
Proof.
  intros Hs Hne. unfold get_auth_header_value. rewrite Hs.
  apply truthy_str in Hne. by rewrite Hne.
Qed.

(** C4, as amended.  [get_auth_header_value] returns the pair of nulls when
    there is no Authorization header and also when the header is present
    but empty, and the lower-cased scheme token with the value when the
    header splits in two at its first whitespace; it raises InvalidHeader
    exactly when a non-empty header is presented that does not split in
    two, as every non-empty header without whitespace.  [verify_basic] on a
    basic header raises InvalidHeader, without calling the verification
    function, when the value does not decode or the decoded text has no
    colon, and else hands the text before the first colon and the text after
    it to the verification. *)
Theorem credential_extraction_failures :
  (∀ req,
     headers req !! "Authorization" = None ∨
     headers req !! "Authorization" = Some EmptyString →
     get_auth_header_value req = Ok None)
  ∧ (∀ req s,
       headers req !! "Authorization" = Some s →
       s ≠ EmptyString → PyStr.has_space s = false →
       get_auth_header_value req = Raise InvalidHeader)
  ∧ (∀ req t v,
       get_auth_header_value req = Ok (Some (t, v)) →
       ∃ s tok, headers req !! "Authorization" = Some s
                ∧ PyStr.split_ws_1 s = [tok; v] ∧ t = PyStr.lower tok)
  ∧ (∀ req e,
       get_auth_header_value req = Raise e ↔
       e = InvalidHeader
       ∧ ∃ s, headers req !! "Authorization" = Some s
              ∧ s ≠ EmptyString
              ∧ ∀ tok v, PyStr.split_ws_1 s ≠ [tok; v])
  ∧ (∀ V (factory : Factory V) b64decode f req sc w v,
       get_auth_header_value req = Ok (Some ("basic", v)) →
       (b64decode v = None
        ∨ ∃ d, b64decode v = Some d ∧ PyStr.has_char ":" d = false) →
       verify_basic b64decode f req sc w = (Raise InvalidHeader, w))
  ∧ (∀ V (factory : Factory V) b64decode f req sc w v username password,
       get_auth_header_value req = Ok (Some ("basic", v)) →
       b64decode v = Some (username +:+ String ":" password) →
       PyStr.has_char ":" username = false →
       verify_basic b64decode f req sc w
       = cls_check_basic_auth f req username password sc w).
Proof.
  split; [|split; [|split; [|split; [|split]]]].
  - intros req [Hs|Hs]; unfold get_auth_header_value; by rewrite Hs.
  - intros req s Hs Hne Hsp.
    rewrite (get_auth_header_value_present _ _ Hs Hne).
    by rewrite (split_ws_1_no_space _ Hne Hsp).
  - intros req t v. unfold get_auth_header_value.
    destruct (headers req !! "Authorization") as [s|]; [|done].
    destruct (negb (truthy (VStr s))); [done|].
    destruct (PyStr.split_ws_1 s) as [|tok [|v' [|]]] eqn:Hsplit; try done.
    intros [= <- <-]. by exists s, tok.
  - intros req e. split.
    + unfold get_auth_header_value.
      destruct (headers req !! "Authorization") as [s|]; [|done].
      destruct (negb (truthy (VStr s))) eqn:Ht; [done|].
      apply negb_false_iff, truthy_str in Ht.
      destruct (PyStr.split_ws_1 s) as [|tok [|v' [|]]] eqn:Hsplit;
        try done; intros [= <-]; (split; [done|]); exists s;
        (split; [done|]); (split; [done|]);
        intros tok0 v0; by rewrite Hsplit.
    + intros (-> & s & Hs & Hne & Hsplit).
      rewrite (get_auth_header_value_present _ _ Hs Hne).
      destruct (PyStr.split_ws_1 s) as [|tok [|v' [|]]] eqn:Heq; try done.
      by destruct (Hsplit tok v').
  - intros V factory b64decode f req sc w v Hauth Hbad.
    unfold verify_basic. unfold_monad. rewrite Hauth. simpl.
    destruct Hbad as [->|(d & -> & Hd)]; [done|].
    by rewrite (split_sep_1_no_sep _ _ Hd).
  - intros V factory b64decode f req sc w v username password
      Hauth Hdec Huser.
    unfold verify_basic. unfold_monad. rewrite Hauth. simpl.
    rewrite Hdec. by rewrite (split_sep_1_first _ _ _ Huser).
Qed.

Lemma credential_extraction_failures_witness :
  get_auth_header_value empty_request = Ok None
  ∧ get_auth_header_value (authorization_request "Bearer")
    = Raise InvalidHeader
  ∧ verify_basic Base64.decode sample_basic_info_func
      (authorization_request "Basic YWxpY2U=") [] fresh_world
    = (Raise InvalidHeader, fresh_world)
  ∧ verify_basic Base64.decode sample_basic_info_func
      (authorization_request "Basic YWxpY2U6c2VjcmV0") [] fresh_world
    = (Ok (VDict {[ "sub" := VStr "alice" ]}),
       World ∅ [Called "basic_info"]).
Proof.
  destruct credential_extraction_failures
    as (Habsent & Hmalformed & _ & _ & Hbad & Hgood).
  split; [|split; [|split]].
  - apply Habsent. by left.
  - by apply (Hmalformed (authorization_request "Bearer") "Bearer").
  - apply (Hbad pyval blocking_factory Base64.decode
             sample_basic_info_func
             (authorization_request "Basic YWxpY2U=") [] fresh_world
             "YWxpY2U=" eq_refl).
    right. by exists "alice".
  - exact (eq_trans
             (Hgood pyval blocking_factory Base64.decode
                sample_basic_info_func
                (authorization_request "Basic YWxpY2U6c2VjcmV0") []
                fresh_world "YWxpY2U6c2VjcmV0" "alice" "secret"
                eq_refl eq_refl eq_refl)
             eq_refl).
Defined.

(** C4.  The claim fails on a header that is present and empty: it has no
    whitespace to split at, yet [if not authorization] treats it like an
    absent header and [get_auth_header_value] returns the pair of nulls, so
    that the scheme verifiers answer NoValue, a silent no-match, where the
    claim requires InvalidHeader. *)
Lemma get_auth_header_value_counterexample :
  headers (authorization_request "") !! "Authorization" = Some ""
  ∧ PyStr.has_space "" = false
  ∧ get_auth_header_value (authorization_request "") = Ok None
  ∧ get_auth_header_value (authorization_request "") ≠ Raise InvalidHeader
  ∧ verify_basic Base64.decode sample_basic_info_func
      (authorization_request "") [] fresh_world
    = (Ok VNoValue, fresh_world)
  ∧ verify_bearer sample_token_info_func
      (authorization_request "") [] fresh_world
    = (Ok VNoValue, fresh_world).
Proof. by repeat split. Qed.

(** ** Remote introspection *)

Lemma session_get_run endpoint url hdrs timeout w :
  session_get endpoint url hdrs timeout w
  = (endpoint url hdrs timeout,
     World (context w) (journal w ++ [HttpGet url hdrs timeout])).
Proof. done. Qed.

(** C7, as amended.  Each introspector makes one HTTP GET of the token-info
    URL with the header [Authorization: Bearer <token>] and a timeout (5 for
    [SecurityHandlerFactory], [remote_token_timeout] for the Flask and
    aiohttp factories), and on success returns the parsed body.  On a
    non-success status the Flask introspector raises RemoteTokenRejected
    with the response and the aiohttp one raises the rejection with the
    response for every status other than 200, while
    [SecurityHandlerFactory.get_token_info_remote] returns null, which the
    bearer check turns into InvalidToken.  A failure of the transport is
    passed on. *)
Theorem remote_introspection :
  (∀ endpoint json url token w r,
     endpoint url [("Authorization", "Bearer " +:+ token)] 5%Z = Ok r →
     get_token_info_remote endpoint json url token w
     = (if ok r then json r else Ok VNone,
        World (context w)
          (journal w
           ++ [HttpGet url [("Authorization", "Bearer " +:+ token)] 5]))
     ∧ (ok r = false →
        ∀ req sc,
          check_bearer_token
            (get_token_info_remote endpoint json url) req token sc w
          = (Raise InvalidToken,
             World (context w)
               (journal w
                ++ [HttpGet url
                      [("Authorization", "Bearer " +:+ token)] 5]))))
  ∧ (∀ endpoint json timeout url token w r,
       endpoint url [("Authorization", "Bearer " +:+ token)] timeout = Ok r →
       flask_get_token_info_remote endpoint json timeout url token w
       = (if ok r then json r else Raise (RemoteTokenRejected r),
          World (context w)
            (journal w
             ++ [HttpGet url [("Authorization", "Bearer " +:+ token)]
                   timeout])))
  ∧ (∀ endpoint json timeout url token w r,
       endpoint url [("Authorization", "Bearer " +:+ token)] timeout = Ok r →
       (let! x := aiohttp_get_token_info_remote endpoint json timeout
                    url token in await_all x) w
       = (if (status_code r =? 200)%Z then json r
          else Raise (OAuthResponseProblem
                        (Some "Provided token is not valid") (Some r)),
          World (context w)
            (journal w
             ++ [HttpGet url [("Authorization", "Bearer " +:+ token)]
                   timeout])))
  ∧ (∀ endpoint json timeout url token w e,
       endpoint url [("Authorization", "Bearer " +:+ token)] timeout
       = Raise e →
       flask_get_token_info_remote endpoint json timeout url token w
       = (Raise e,
          World (context w)
            (journal w
             ++ [HttpGet url [("Authorization", "Bearer " +:+ token)]
                   timeout]))).
Proof.
  split; [|split; [|split]].
  - intros endpoint json url token w r Hr.
    assert (Hrun : get_token_info_remote endpoint json url token w
                   = (if ok r then json r else Ok VNone,
                      World (context w)
                        (journal w
                         ++ [HttpGet url
                               [("Authorization", "Bearer " +:+ token)]
                               5]))).
    { unfold get_token_info_remote, bind.
      rewrite session_get_run. unfold bearer_header. rewrite Hr.
      by destruct (ok r). }
    split; [done|]. intros Hok req sc.
    unfold check_bearer_token. unfold bind at 1.
    by rewrite Hrun, Hok.
  - intros endpoint json timeout url token w r Hr.
    unfold flask_get_token_info_remote, bind.
    rewrite session_get_run. unfold bearer_header. rewrite Hr.
    by destruct (ok r).
  - intros endpoint json timeout url token w r Hr.
    unfold aiohttp_get_token_info_remote. unfold bind at 1. unfold ret at 1.
    simpl. unfold bind at 1.
    rewrite session_get_run. unfold bearer_header. rewrite Hr.
    destruct (status_code r =? 200)%Z; simpl; [|done].
    unfold bind, lift, ret. by destruct (json r).
  - intros endpoint json timeout url token w e He.
    unfold flask_get_token_info_remote, bind.
    rewrite session_get_run. unfold bearer_header. by rewrite He.
Qed.

Lemma remote_introspection_witness :
  flask_get_token_info_remote rejecting_endpoint sample_json 5
    "https://idp.example/tokeninfo" "xyz" fresh_world
  = (Raise (RemoteTokenRejected (Response 401 "denied")),
     World ∅ [HttpGet "https://idp.example/tokeninfo"
                [("Authorization", "Bearer xyz")] 5])
  ∧ flask_get_token_info_remote accepting_endpoint sample_json 5
      "https://idp.example/tokeninfo" "xyz" fresh_world
    = (Ok (VDict alice_info),
       World ∅ [HttpGet "https://idp.example/tokeninfo"
                  [("Authorization", "Bearer xyz")] 5]).
Proof.
  split.
  - exact (proj1 (proj2 remote_introspection)
             rejecting_endpoint sample_json 5%Z
             "https://idp.example/tokeninfo" "xyz" fresh_world
             (Response 401 "denied") eq_refl).
  - exact (proj1 (proj2 remote_introspection)
             accepting_endpoint sample_json 5%Z
             "https://idp.example/tokeninfo" "xyz" fresh_world
             (Response 200 "{}") eq_refl).
Defined.

(** C7, as stated, fails for [SecurityHandlerFactory.get_token_info_remote]:
    on a 401 of the endpoint it returns null and raises nothing. *)
Lemma get_token_info_remote_counterexample :
  ok (Response 401 "denied") = false
  ∧ get_token_info_remote rejecting_endpoint sample_json
      "https://idp.example/tokeninfo" "xyz" fresh_world
    = (Ok VNone,
       World ∅ [HttpGet "https://idp.example/tokeninfo"
                  [("Authorization", "Bearer xyz")] 5])
  ∧ fst (get_token_info_remote rejecting_endpoint sample_json
           "https://idp.example/tokeninfo" "xyz" fresh_world)
    ≠ Raise (RemoteTokenRejected (Response 401 "denied")).
Proof.
  split; [reflexivity|]. split; [reflexivity|]. vm_compute. discriminate.
Qed.

(** ** Errors in the security definitions *)





(** [security_deny] returns a handler that raises
    [ConnexionException("Error in security definitions")] on every request,
    without calling the wrapped function. *)
Lemma security_deny_raises {R} (function : request → M R) req w :
  security_deny function req w
  = (Raise (ConnexionException "Error in security definitions"), w).
Proof. done. Qed.

(** ** The scheme verifiers on requests without their credential *)

(** X8.  A request without an Authorization header, or with one of another
    scheme, does not apply to the bearer, basic and oauth2 verifiers of
    either factory, and a request without the named key does not apply to
    the apiKey verifier: they return the sentinel and leave the world as it
    is, without calling the verification function. *)
Lemma scheme_verifiers_not_applicable {V} (factory : Factory V)
    b64decode cookie_load req sc w :
  (get_auth_header_value req = Ok None →
   (∀ f, verify_bearer f req sc w = (Ok no_value, w))
   ∧ (∀ f, verify_basic b64decode f req sc w = (Ok no_value, w))
   ∧ (∀ f g, verify_oauth f g req sc w = (Ok no_value, w)))
  ∧ (∀ auth_type value,
       get_auth_header_value req = Ok (Some (auth_type, value)) →
       (auth_type ≠ "bearer" →
        (∀ f, verify_bearer f req sc w = (Ok no_value, w))
        ∧ (∀ f g, verify_oauth f g req sc w = (Ok no_value, w)))
       ∧ (auth_type ≠ "basic" →
          ∀ f, verify_basic b64decode f req sc w = (Ok no_value, w)))
  ∧ (∀ f name, query req !! name = None →
       verify_api_key cookie_load f "query" name req sc w
       = (Ok no_value, w))
  ∧ (∀ f name, headers req !! name = None →
       verify_api_key cookie_load f "header" name req sc w
       = (Ok no_value, w))
  ∧ (∀ f name jar,
       cookie_load (match headers req !! "Cookie" with
                    | Some c => c
                    | None => "None"
                    end) = Ok jar →
       jar !! name = None →
       verify_api_key cookie_load f "cookie" name req sc w
       = (Ok no_value, w)).
Proof.
  split; [|split; [|split; [|split]]].
  - intros Hauth. unfold verify_bearer, verify_basic, verify_oauth.
    unfold_monad. rewrite Hauth. by repeat split.
  - intros auth_type value Hauth. split.
    + intros Hne%String.eqb_neq.
      unfold verify_bearer, verify_oauth. unfold_monad.
      rewrite Hauth. simpl. rewrite Hne. by split.
    + intros Hne%String.eqb_neq f.
      unfold verify_basic. unfold_monad.
      rewrite Hauth. simpl. by rewrite Hne.
  - intros f name Hq. unfold verify_api_key. unfold_monad. simpl.
    by rewrite Hq.
  - intros f name Hh. unfold verify_api_key. unfold_monad. simpl.
    by rewrite Hh.
  - intros f name jar Hjar Hname. unfold verify_api_key, get_cookie_value.
    unfold_monad. simpl. by rewrite Hjar, Hname.
Qed.

(** X10.  The verifiers that the cooperative factory inherits, once
    awaited, are those of the blocking factory on the awaited verification
    functions: extraction of the credential, mismatch of the scheme and
    failures are the same in the two modes. *)
Lemma scheme_verifiers_awaited b64decode cookie_load req sc w :
  (∀ f, awaited (verify_bearer f) req sc w
        = verify_bearer (λ t, let! x := f t in await_all x) req sc w)
  ∧ (∀ f, awaited (verify_basic b64decode f) req sc w
          = verify_basic b64decode
              (λ u p s, let! x := f u p s in await_all x) req sc w)
  ∧ (∀ f g, awaited (verify_oauth f g) req sc w
            = verify_oauth (λ t, let! x := f t in await_all x)
                (λ r s, let! x := g r s in await_all x) req sc w)
  ∧ (∀ f loc name,
       awaited (verify_api_key cookie_load f loc name) req sc w
       = verify_api_key cookie_load
           (λ k s, let! x := f k s in await_all x) loc name req sc w).
Proof.
  split; [|split; [|split]].
  - intros f. unfold awaited, verify_bearer. unfold_monad.
    destruct (get_auth_header_value req) as [[[t v]|]|e]; try done.
    destruct (negb (String.eqb t "bearer")); [done|].
    apply check_bearer_token_awaited.
  - intros f. unfold awaited, verify_basic. unfold_monad.
    destruct (get_auth_header_value req) as [[[t v]|]|e]; try done.
    destruct (negb (String.eqb t "basic")); [done|].
    destruct (b64decode v) as [d|]; [|done].
    destruct (PyStr.split_sep_1 ":" d) as [|user [|pass [|]]]; try done.
    apply check_basic_auth_awaited.
  - intros f g. unfold awaited, verify_oauth. unfold_monad.
    destruct (get_auth_header_value req) as [[[t v]|]|e]; try done.
    destruct (negb (String.eqb t "bearer")); [done|].
    apply check_oauth_func_awaited.
  - intros f loc name. unfold awaited, verify_api_key. unfold_monad.
    destruct (if String.eqb loc "query" then _ else _)
      as [[[k|]|]|e]; try done.
    apply check_api_key_awaited.
Qed.

(** X9.  A request without an Authorization header and without the key of
    the API key gets NoAuthorization from the four schemes together: no
    verification function is called, nothing is written and the handler is
    not invoked. *)
Lemma no_credentials_no_authorization {R} b64decode cookie_load
    bearer_info basic_info token_info scope_validate api_key_info name
    sc (function : request → M R) req w :
  headers req !! "Authorization" = None →
  query req !! name = None →
  verify_security
    [verify_bearer bearer_info; verify_basic b64decode basic_info;
     verify_oauth token_info scope_validate;
     verify_api_key cookie_load api_key_info "query" name]
    sc function req w
  = (Raise NoAuthorization, w).
Proof.
  intros Hauth Hquery.
  assert (Hnone : get_auth_header_value req = Ok None).
  { unfold get_auth_header_value. by rewrite Hauth. }
  rewrite verify_security_unfold.
  rewrite (auth_loop_all_no_value _ req sc VNone w w); [done|done|].
  simpl. unfold verify_bearer, verify_basic, verify_oauth, verify_api_key.
  unfold_monad. rewrite Hnone. simpl. by rewrite Hquery.
Qed.

Lemma no_credentials_no_authorization_witness :
  verify_security
    [verify_bearer sample_token_info_func;
     verify_basic Base64.decode sample_basic_info_func;
     verify_oauth sample_token_info_func validate_scope_func;
     verify_api_key one_pair_cookie_load sample_api_key_info_func
       "query" "api_key"]
    ["read"] sample_handler empty_request fresh_world
  = (Raise NoAuthorization, fresh_world).
Proof.
  apply (no_credentials_no_authorization Base64.decode
           one_pair_cookie_load sample_token_info_func
           sample_basic_info_func sample_token_info_func
           validate_scope_func sample_api_key_info_func "api_key"
           ["read"] sample_handler empty_request fresh_world);
    reflexivity.
Defined.

Lemma scheme_verifiers_not_applicable_witness :
  verify_bearer sample_token_info_func
    (authorization_request "Basic YWxpY2U6c2VjcmV0") [] fresh_world
  = (Ok VNoValue, fresh_world)
  ∧ verify_basic Base64.decode
      (λ u p s, let! v := sample_basic_info_func u p s in ret (Plain v))
      (authorization_request "Bearer xyz") [] fresh_world
    = (Ok (Plain VNoValue), fresh_world).
Proof.
  split.
  - apply (proj1 (proj1 (proj2 (scheme_verifiers_not_applicable
             blocking_factory Base64.decode one_pair_cookie_load
             (authorization_request "Basic YWxpY2U6c2VjcmV0") []
             fresh_world)) "basic" "YWxpY2U6c2VjcmV0" eq_refl));
      discriminate.
  - apply (proj2 (proj1 (proj2 (scheme_verifiers_not_applicable
             cooperative_factory Base64.decode one_pair_cookie_load
             (authorization_request "Bearer xyz") []
             fresh_world)) "bearer" "xyz" eq_refl));
      discriminate.
Defined.

(** ** Further properties of the credential extraction *)

Lemma lower_char_idem c :
  PyStr.lower_char (PyStr.lower_char c) = PyStr.lower_char c.
Proof. destruct c as [[] [] [] [] [] [] [] []]; reflexivity. Qed.

Lemma isspace_lower_char c :
  PyStr.isspace (PyStr.lower_char c) = PyStr.isspace c.
Proof. destruct c as [[] [] [] [] [] [] [] []]; reflexivity. Qed.

Lemma lower_idem s : PyStr.lower (PyStr.lower s) = PyStr.lower s.
Proof.
  induction s as [|c s IH]; simpl; [done|].
  by rewrite lower_char_idem, IH.
Qed.

Lemma has_space_lower s :
  PyStr.has_space (PyStr.lower s) = PyStr.has_space s.
Proof.
  unfold PyStr.has_space. induction s as [|c s IH]; simpl; [done|].
  by rewrite isspace_lower_char, IH.
Qed.

Lemma lstrip_spec s :
  ∃ pad, s = pad +:+ PyStr.lstrip s ∧ blank pad = true
         ∧ PyStr.lstrip (PyStr.lstrip s) = PyStr.lstrip s
         ∧ (pad = EmptyString → PyStr.lstrip s = s).
Proof.
  induction s as [|c s (pad & Hs & Hpad & Hidem & Hnil)]; simpl.
  - by exists EmptyString.
  - destruct (PyStr.isspace c) eqn:Hc.
    + exists (String c pad). split; [exact (f_equal (String c) Hs)|].
      split; [unfold blank in *; simpl; by rewrite Hc, Hpad|].
      by split.
    + exists EmptyString. simpl. by rewrite Hc.
Qed.

Lemma lstrip_length s :
  String.length (PyStr.lstrip s) ≤ String.length s.
Proof.
  induction s as [|c s IH]; simpl; [done|].
  destruct (PyStr.isspace c); simpl; lia.
Qed.

Lemma span_word_spec s w r :
  PyStr.span_word s = (w, r) →
  s = w +:+ r ∧ PyStr.has_space w = false
  ∧ (r ≠ EmptyString → PyStr.lstrip r ≠ r)
  ∧ (PyStr.lstrip s = s → s ≠ EmptyString → w ≠ EmptyString).
Proof.
  revert w r. induction s as [|c s IH]; simpl; intros w r.
  - by intros [= <- <-].
  - destruct (PyStr.isspace c) eqn:Hc.
    + intros [= <- <-]. simpl. rewrite Hc. repeat split; try done.
      * intros _ Heq. apply (f_equal String.length) in Heq.
        pose proof (lstrip_length s). simpl in Heq. lia.
      * intros Heq. apply (f_equal String.length) in Heq.
        pose proof (lstrip_length s). simpl in Heq. lia.
    + destruct (PyStr.span_word s) as [w' r'] eqn:Hspan.
      intros [= <- <-]. destruct (IH w' r' eq_refl) as (Hs & Hw & Hr & _).
      split; [exact (f_equal (String c) Hs)|].
      split; [unfold PyStr.has_space in *; simpl; by rewrite Hc|].
      by split.
Qed.

(** X1.  What [get_auth_header_value] returns for a header is its shape:
    the header is padding, a word, a gap of whitespace that is not empty,
    and the value; the scheme is the word in lower case, so it is not empty,
    has no whitespace and is fixed by lower-casing; the value is not empty
    and does not begin with whitespace (its own trailing whitespace is
    kept). *)
Theorem get_auth_header_value_shape req t v :
  get_auth_header_value req = Ok (Some (t, v)) →
  t ≠ EmptyString ∧ PyStr.has_space t = false ∧ PyStr.lower t = t
  ∧ v ≠ EmptyString ∧ PyStr.lstrip v = v
  ∧ ∃ pad tok gap,
      headers req !! "Authorization" = Some (pad +:+ tok +:+ gap +:+ v)
      ∧ blank pad = true ∧ blank gap = true ∧ gap ≠ EmptyString
      ∧ t = PyStr.lower tok.
Proof.
  unfold get_auth_header_value.
  destruct (headers req !! "Authorization") as [s|]; [|done].
  destruct (negb (truthy (VStr s))); [done|].
  unfold PyStr.split_ws_1.
  destruct (lstrip_spec s) as (pad & Hs & Hpad & Hidem & _).
  destruct (PyStr.lstrip s) as [|c s1] eqn:Hs1; [done|].
  destruct (PyStr.span_word (String c s1)) as [w r] eqn:Hspan.
  destruct (span_word_spec _ _ _ Hspan) as (Hwr & Hw & Hr & Hne).
  destruct (lstrip_spec r) as (gap & Hgap & Hblank & Hidem' & Hnil).
  destruct (PyStr.lstrip r) as [|c' v'] eqn:Hv; [done|].
  intros [= <- <-].
  assert (Hwne : w ≠ EmptyString) by (by apply Hne).
  split; [by destruct w|].
  split; [by rewrite has_space_lower|].
  split; [apply lower_idem|].
  split; [done|]. split; [done|].
  exists pad, w, gap. rewrite <- Hgap, <- Hwr. split; [by rewrite Hs|].
  split; [done|]. split; [done|]. split; [|done].
  intros ->. apply Hr; [|by apply Hnil].
  rewrite Hgap. simpl. discriminate.
Qed.

Lemma get_auth_header_value_shape_witness :
  "bearer" ≠ EmptyString ∧ PyStr.has_space "bearer" = false
  ∧ PyStr.lower "bearer" = "bearer"
  ∧ "xyz " ≠ EmptyString ∧ PyStr.lstrip "xyz " = "xyz "
  ∧ ∃ pad tok gap,
      headers (authorization_request " BeArer   xyz ") !! "Authorization"
      = Some (pad +:+ tok +:+ gap +:+ "xyz ")
      ∧ blank pad = true ∧ blank gap = true ∧ gap ≠ EmptyString
      ∧ "bearer" = PyStr.lower tok.
Proof.
  exact (get_auth_header_value_shape
           (authorization_request " BeArer   xyz ") "bearer" "xyz "
           eq_refl).
Defined.

(** ** Further properties of the scheme verifiers *)

Lemma split_ws_1_nonempty s tok v :
  PyStr.split_ws_1 s = [tok; v] → s ≠ EmptyString.
Proof. by intros Hsplit ->. Qed.

(** X2.  The scheme of the Authorization header is matched without regard
    to case, and a bearer header applies to the bearer verifier and to the
    oauth2 verifier alike (of either factory): each hands the token, as it
    stands, to its check. *)
Theorem bearer_header_matches {V} (factory : Factory V) req s tok token
    f g sc w :
  headers req !! "Authorization" = Some s →
  PyStr.split_ws_1 s = [tok; token] →
  PyStr.lower tok = "bearer" →
  verify_bearer f req sc w = cls_check_bearer_token f req token sc w
  ∧ verify_oauth f g req sc w = cls_check_oauth_func f g req token sc w.
Proof.
  intros Hs Hsplit Hlower.
  assert (Hauth : get_auth_header_value req = Ok (Some ("bearer", token))).
  { rewrite (get_auth_header_value_present _ _ Hs
               (split_ws_1_nonempty _ _ _ Hsplit)).
    by rewrite Hsplit, Hlower. }
  unfold verify_bearer, verify_oauth. unfold_monad. by rewrite Hauth.
Qed.

Lemma bearer_header_matches_witness :
  verify_bearer sample_token_info_func
    (authorization_request "BEARER xyz") [] fresh_world
  = check_bearer_token sample_token_info_func
      (authorization_request "BEARER xyz") "xyz" [] fresh_world
  ∧ verify_oauth sample_token_info_func validate_scope_func
      (authorization_request "BEARER xyz") [] fresh_world
    = check_oauth_func sample_token_info_func validate_scope_func
        (authorization_request "BEARER xyz") "xyz" [] fresh_world.
Proof.
  exact (bearer_header_matches blocking_factory
           (authorization_request "BEARER xyz") "BEARER xyz" "BEARER" "xyz"
           sample_token_info_func validate_scope_func [] fresh_world
           eq_refl eq_refl eq_refl).
Defined.

(** X3.  [verify_api_key] hands to the check the value it finds under the
    name in the query, in the headers or in the cookies, an empty value
    included (only a missing one is no credential); an error of the cookie
    parser is raised as it is; and for a location other than [query],
    [header] and [cookie] it returns the sentinel for every request. *)
Theorem verify_api_key_locations {V} (factory : Factory V) cookie_load f
    name req sc w :
  (∀ k, query req !! name = Some k →
        verify_api_key cookie_load f "query" name req sc w
        = cls_check_api_key f req k sc w)
  ∧ (∀ k, headers req !! name = Some k →
          verify_api_key cookie_load f "header" name req sc w
          = cls_check_api_key f req k sc w)
  ∧ (∀ jar k,
       cookie_load (match headers req !! "Cookie" with
                    | Some c => c
                    | None => "None"
                    end) = Ok jar →
       jar !! name = Some k →
       verify_api_key cookie_load f "cookie" name req sc w
       = cls_check_api_key f req k sc w)
  ∧ (∀ e,
       cookie_load (match headers req !! "Cookie" with
                    | Some c => c
                    | None => "None"
                    end) = Raise e →
       verify_api_key cookie_load f "cookie" name req sc w = (Raise e, w))
  ∧ (∀ loc, loc ≠ "query" → loc ≠ "header" → loc ≠ "cookie" →
            verify_api_key cookie_load f loc name req sc w
            = (Ok no_value, w)).
Proof.
  split; [|split; [|split; [|split]]].
  - intros k Hk. unfold verify_api_key. unfold_monad. simpl.
    by rewrite Hk.
  - intros k Hk. unfold verify_api_key. unfold_monad. simpl.
    by rewrite Hk.
  - intros jar k Hjar Hk. unfold verify_api_key, get_cookie_value.
    unfold_monad. simpl. by rewrite Hjar, Hk.
  - intros e He. unfold verify_api_key, get_cookie_value.
    unfold_monad. simpl. by rewrite He.
  - intros loc Hq Hh Hc. unfold verify_api_key. unfold_monad.
    apply String.eqb_neq in Hq, Hh, Hc. by rewrite Hq, Hh, Hc.
Qed.

Lemma verify_api_key_locations_witness :
  verify_api_key one_pair_cookie_load sample_api_key_info_func
    "query" "api_key" (Request ∅ {[ "api_key" := "" ]}) [] fresh_world
  = check_api_key sample_api_key_info_func
      (Request ∅ {[ "api_key" := "" ]}) "" [] fresh_world
  ∧ verify_api_key one_pair_cookie_load sample_api_key_info_func
      "cookie" "session"
      (Request {[ "Cookie" := "session=s3" ]} ∅) [] fresh_world
    = check_api_key sample_api_key_info_func
        (Request {[ "Cookie" := "session=s3" ]} ∅) "s3" [] fresh_world
  ∧ verify_api_key one_pair_cookie_load sample_api_key_info_func
      "body" "api_key" (Request ∅ {[ "api_key" := "k" ]}) [] fresh_world
    = (Ok VNoValue, fresh_world).
Proof.
  split; [|split].
  - exact (proj1 (verify_api_key_locations blocking_factory
                    one_pair_cookie_load sample_api_key_info_func
                    "api_key" (Request ∅ {[ "api_key" := "" ]}) []
                    fresh_world) "" eq_refl).
  - exact (proj1 (proj2 (proj2 (verify_api_key_locations blocking_factory
                    one_pair_cookie_load sample_api_key_info_func
                    "session" (Request {[ "Cookie" := "session=s3" ]} ∅) []
                    fresh_world))) {[ "session" := "s3" ]} "s3"
             eq_refl eq_refl).
  - apply (proj2 (proj2 (proj2 (proj2 (verify_api_key_locations
             blocking_factory one_pair_cookie_load
             sample_api_key_info_func "api_key"
             (Request ∅ {[ "api_key" := "k" ]}) [] fresh_world))))
             "body"); discriminate.
Defined.

(** ** Further properties of the scope validation *)

Lemma py_set_same_members (l1 l2 : list pyval) :
  (∀ x, x ∈ l1 ↔ x ∈ l2) → py_set l1 = py_set l2.
Proof.
  intros Hsame. unfold py_set.
  destruct (mapM to_hashable l1) as [h1|] eqn:H1;
    destruct (mapM to_hashable l2) as [h2|] eqn:H2; simpl.
  - f_equal. apply set_eq. intros h. rewrite !elem_of_list_to_set.
    apply mapM_Some in H1, H2. split; intros Hh.
    + destruct (proj1 (list_elem_of_lookup _ _) Hh) as [i Hi].
      destruct (Forall2_lookup_r _ _ _ _ _ H1 Hi) as (x & Hx & Hxh).
      assert (Hin : x ∈ l2).
      { apply Hsame. by apply list_elem_of_lookup_2 in Hx. }
      destruct (proj1 (list_elem_of_lookup _ _) Hin) as [j Hj].
      destruct (Forall2_lookup_l _ _ _ _ _ H2 Hj) as (h' & Hh' & Hxh').
      rewrite Hxh in Hxh'. injection Hxh' as <-.
      by apply list_elem_of_lookup_2 in Hh'.
    + destruct (proj1 (list_elem_of_lookup _ _) Hh) as [i Hi].
      destruct (Forall2_lookup_r _ _ _ _ _ H2 Hi) as (x & Hx & Hxh).
      assert (Hin : x ∈ l1).
      { apply Hsame. by apply list_elem_of_lookup_2 in Hx. }
      destruct (proj1 (list_elem_of_lookup _ _) Hin) as [j Hj].
      destruct (Forall2_lookup_l _ _ _ _ _ H1 Hj) as (h' & Hh' & Hxh').
      rewrite Hxh in Hxh'. injection Hxh' as <-.
      by apply list_elem_of_lookup_2 in Hh'.
  - exfalso. apply mapM_None in H2. apply mapM_Some in H1.
    apply Exists_exists in H2 as (x & Hx & Hnone).
    apply Hsame in Hx.
    destruct (proj1 (list_elem_of_lookup _ _) Hx) as [i Hi].
    destruct (Forall2_lookup_l _ _ _ _ _ H1 Hi) as (h & _ & Hsome).
    by rewrite Hsome in Hnone.
  - exfalso. apply mapM_None in H1. apply mapM_Some in H2.
    apply Exists_exists in H1 as (x & Hx & Hnone).
    apply Hsame in Hx.
    destruct (proj1 (list_elem_of_lookup _ _) Hx) as [i Hi].
    destruct (Forall2_lookup_l _ _ _ _ _ H2 Hi) as (h & _ & Hsome).
    by rewrite Hsome in Hnone.
  - done.
Qed.

Lemma required_set_same_members (r1 r2 : list string) :
  (∀ x, x ∈ r1 ↔ x ∈ r2) →
  list_to_set (HStr <$> r1) =@{gset hashable} list_to_set (HStr <$> r2).
Proof.
  intros Hsame. apply set_eq. intros h.
  rewrite !elem_of_list_to_set, !list_elem_of_fmap.
  split; intros (x & -> & Hx); exists x; (split; [done|]); by apply Hsame.
Qed.

(** X4.  The edges of [validate_scope]: with no required scope it accepts
    every string and every list of hashable members; a list with an
    unhashable member (a list, a dict) is a [TypeError] whatever is
    required, and granted scopes that are neither a list nor a string are an
    [AttributeError]; the outcome depends on the required scopes and on a
    granted list only through their members, not through order or
    repetition. *)
Theorem validate_scope_edges :
  (∀ s, validate_scope [] (VStr s) = Ok true)
  ∧ (∀ l G, py_set l = Some G → validate_scope [] (VList l) = Ok true)
  ∧ (∀ required l v,
       v ∈ l → to_hashable v = None →
       validate_scope required (VList l) = Raise (TypeError "unhashable type"))
  ∧ (∀ required token_scopes,
       (∀ s, token_scopes ≠ VStr s) → (∀ l, token_scopes ≠ VList l) →
       validate_scope required token_scopes
       = Raise (AttributeError
                  ("'" +:+ type_name token_scopes
                   +:+ "' object has no attribute 'split'")))
  ∧ (∀ r1 r2 token_scopes,
       (∀ x, x ∈ r1 ↔ x ∈ r2) →
       validate_scope r1 token_scopes = validate_scope r2 token_scopes)
  ∧ (∀ required l1 l2,
       (∀ x, x ∈ l1 ↔ x ∈ l2) →
       validate_scope required (VList l1)
       = validate_scope required (VList l2)).
Proof.
  split; [|split; [|split; [|split; [|split]]]].
  - intros s. unfold validate_scope. f_equal.
    apply bool_decide_eq_true. set_solver.
  - intros l G HG. unfold validate_scope. rewrite HG. f_equal.
    apply bool_decide_eq_true. set_solver.
  - intros required l v Hv Hnone. unfold validate_scope.
    assert (Hset : py_set l = None); [|by rewrite Hset].
    unfold py_set.
    assert (HM : mapM to_hashable l = None); [|by rewrite HM].
    apply mapM_None, Exists_exists. by exists v.
  - intros required token_scopes Hstr Hlist.
    destruct token_scopes; try done.
    + by destruct (Hstr s).
    + by destruct (Hlist l).
  - intros r1 r2 token_scopes Hsame. unfold validate_scope.
    by rewrite (required_set_same_members _ _ Hsame).
  - intros required l1 l2 Hsame. unfold validate_scope.
    by rewrite (py_set_same_members _ _ Hsame).
Qed.

Lemma validate_scope_edges_witness :
  validate_scope [] (VList [VStr "read"; VInt 3]) = Ok true
  ∧ validate_scope [] (VList [VStr "read"; VList []])
    = Raise (TypeError "unhashable type")
  ∧ validate_scope ["read"] VNone
    = Raise (AttributeError "'NoneType' object has no attribute 'split'")
  ∧ validate_scope ["b"; "a"; "b"] (VStr "a b")
    = validate_scope ["a"; "b"] (VStr "a b").
Proof.
  split; [|split; [|split]].
  - exact (proj1 (proj2 validate_scope_edges)
             [VStr "read"; VInt 3] _ eq_refl).
  - apply (proj1 (proj2 (proj2 validate_scope_edges))
             [] [VStr "read"; VList []] (VList [])).
    + apply list_elem_of_In. simpl. tauto.
    + reflexivity.
  - apply (proj1 (proj2 (proj2 (proj2 validate_scope_edges)))
             ["read"] VNone); discriminate.
  - apply (proj1 (proj2 (proj2 (proj2 (proj2 validate_scope_edges))))
             ["b"; "a"; "b"] ["a"; "b"] (VStr "a b")).
    intros x. rewrite !list_elem_of_In. simpl. tauto.
Defined.

(** ** Further properties of the orchestrator *)

(** X5.  [verify_security] installs an identity only from a mapping: when
    the result that ends the loop is an object without [get] (null, a
    boolean, a string, a list), the wrapper raises the [AttributeError] of
    that object in the world the verifiers left, so nothing is written into
    the context and the handler is not invoked. *)
Theorem verify_security_needs_mapping {R} pre f post sc
    (function : request → M R) req w w1 v w2 :
  all_no_value pre req sc w = Some w1 →
  f req sc w1 = (Ok v, w2) →
  v ≠ VNoValue →
  (∀ d, v ≠ VDict d) →
  verify_security (pre ++ f :: post) sc function req w
  = (Raise (AttributeError
              ("'" +:+ type_name v +:+ "' object has no attribute 'get'")),
     w2).
Proof.
  intros Hpre Hf Hsentinel Hdict.
  rewrite verify_security_unfold, (auth_loop_prefix _ _ _ _ _ _ _ Hpre).
  rewrite auth_loop_first; rewrite Hf; [|by intros [= ->]].
  destruct v; try done. by destruct (Hdict d).
Qed.

Lemma verify_security_needs_mapping_witness :
  verify_security ([skipping "bearer"] ++ answering "custom" (VBool true)
                     :: [answering "apiKey" (VDict alice_info)])
    [] sample_handler empty_request fresh_world
  = (Raise (AttributeError "'bool' object has no attribute 'get'"),
     World ∅ [Called "bearer"; Called "custom"]).
Proof.
  apply (verify_security_needs_mapping
           [skipping "bearer"] (answering "custom" (VBool true))
           [answering "apiKey" (VDict alice_info)] [] sample_handler
           empty_request fresh_world (World ∅ [Called "bearer"])
           (VBool true) (World ∅ [Called "bearer"; Called "custom"])).
  - reflexivity.
  - reflexivity.
  - discriminate.
  - discriminate.
Defined.

(** X6.  A verifier that raises ends the request with its exception: the
    verifiers before it have run, the ones after it have not, nothing is
    written into the context and the handler is not invoked.  So a
    malformed Authorization header met by a bearer, basic or oauth2
    verifier is InvalidHeader whatever schemes follow, and a bearer token
    that the verification function rejects with null is InvalidToken and
    does not fall through to the schemes that follow. *)
Theorem verify_security_fail_fast {R} sc (function : request → M R)
    req w :
  (∀ pre f post w1 e w2,
     all_no_value pre req sc w = Some w1 →
     f req sc w1 = (Raise e, w2) →
     verify_security (pre ++ f :: post) sc function req w = (Raise e, w2))
  ∧ (∀ s b64decode token_info basic_info scope_validate rest,
       headers req !! "Authorization" = Some s →
       s ≠ EmptyString →
       (∀ tok v, PyStr.split_ws_1 s ≠ [tok; v]) →
       verify_security (verify_bearer token_info :: rest) sc function req w
       = (Raise InvalidHeader, w)
       ∧ verify_security (verify_basic b64decode basic_info :: rest)
           sc function req w
         = (Raise InvalidHeader, w)
       ∧ verify_security (verify_oauth token_info scope_validate :: rest)
           sc function req w
         = (Raise InvalidHeader, w))
  ∧ (∀ s tok token token_info rest w1,
       headers req !! "Authorization" = Some s →
       PyStr.split_ws_1 s = [tok; token] →
       PyStr.lower tok = "bearer" →
       token_info token w = (Ok VNone, w1) →
       verify_security (verify_bearer token_info :: rest) sc function req w
       = (Raise InvalidToken, w1)).
Proof.
  assert (Hraise : ∀ pre f post w1 e w2,
            all_no_value pre req sc w = Some w1 →
            f req sc w1 = (Raise e, w2) →
            verify_security (pre ++ f :: post) sc function req w
            = (Raise e, w2)).
  { intros pre f post w1 e w2 Hpre Hf.
    rewrite verify_security_unfold, (auth_loop_prefix _ _ _ _ _ _ _ Hpre).
    rewrite auth_loop_first; by rewrite Hf. }
  split; [exact Hraise|]. split.
  - intros s b64decode token_info basic_info scope_validate rest
      Hs Hne Hsplit.
    assert (Hauth : get_auth_header_value req = Raise InvalidHeader).
    { rewrite (get_auth_header_value_present _ _ Hs Hne).
      destruct (PyStr.split_ws_1 s) as [|tok [|v [|]]] eqn:Heq; try done.
      by destruct (Hsplit tok v). }
    split; [|split]; apply (Hraise [] _ rest w); try done.
    + unfold verify_bearer. unfold_monad. by rewrite Hauth.
    + unfold verify_basic. unfold_monad. by rewrite Hauth.
    + unfold verify_oauth. unfold_monad. by rewrite Hauth.
  - intros s tok token token_info rest w1 Hs Hsplit Hlower Hnull.
    apply (Hraise [] _ rest w); [done|].
    assert (Hauth : get_auth_header_value req
                    = Ok (Some ("bearer", token))).
    { rewrite (get_auth_header_value_present _ _ Hs
                 (split_ws_1_nonempty _ _ _ Hsplit)).
      by rewrite Hsplit, Hlower. }
    unfold verify_bearer. unfold_monad. rewrite Hauth. simpl.
    unfold check_bearer_token. unfold_monad. by rewrite Hnull.
Qed.

Lemma verify_security_fail_fast_witness :
  verify_security
    [verify_bearer sample_token_info_func;
     verify_api_key one_pair_cookie_load sample_api_key_info_func
       "query" "api_key"]
    [] sample_handler
    (Request {[ "Authorization" := "Bearer" ]} {[ "api_key" := "k" ]})
    fresh_world
  = (Raise InvalidHeader, fresh_world)
  ∧ verify_security
      [verify_bearer sample_token_info_func;
       verify_api_key one_pair_cookie_load sample_api_key_info_func
         "query" "api_key"]
      [] sample_handler
      (Request {[ "Authorization" := "Bearer bad" ]} {[ "api_key" := "k" ]})
      fresh_world
    = (Raise InvalidToken, World ∅ [Called "token_info"]).
Proof.
  split.
  - apply (proj1 (proj2 (verify_security_fail_fast [] sample_handler
             (Request {[ "Authorization" := "Bearer" ]}
                {[ "api_key" := "k" ]}) fresh_world))
             "Bearer" Base64.decode sample_token_info_func
             sample_basic_info_func validate_scope_func).
    + reflexivity.
    + discriminate.
    + discriminate.
  - apply (proj2 (proj2 (verify_security_fail_fast [] sample_handler
             (Request {[ "Authorization" := "Bearer bad" ]}
                {[ "api_key" := "k" ]}) fresh_world))
             "Bearer bad" "Bearer" "bad"); reflexivity.
Defined.

(** X7.  The edges of [check_oauth_func]: a result of the verification
    function that is not the sentinel, null or a mapping is an
    [AttributeError] and the scope validation is not called; a mapping with
    neither [scope] nor [scopes] grants the empty string, so that with
    [validate_scope] it passes exactly when nothing is required; and when
    [scope] is present the value of [scopes] plays no part. *)
Theorem check_oauth_func_edges f req token sc w :
  (∀ g v w1,
     f token w = (Ok v, w1) →
     v ≠ VNoValue → v ≠ VNone → (∀ d, v ≠ VDict d) →
     check_oauth_func f g req token sc w
     = (Raise (AttributeError
                 ("'" +:+ type_name v
                  +:+ "' object has no attribute 'get'")), w1))
  ∧ (∀ token_info w1,
       f token w = (Ok (VDict token_info), w1) →
       token_info !! "scope" = None → token_info !! "scopes" = None →
       check_oauth_func f validate_scope_func req token sc w
       = (match sc with
          | [] => Ok (VDict token_info)
          | _ => Raise (InsufficientScope sc (VStr ""))
          end, w1))
  ∧ (∀ g token_info s x w1 w1',
       f token w = (Ok (VDict token_info), w1) →
       token_info !! "scope" = Some s →
       ∀ f', f' token w = (Ok (VDict (<["scopes" := x]> token_info)), w1') →
       g sc s w1 = g sc s w1' →
       fst (check_oauth_func f' g req token sc w)
       = match fst (check_oauth_func f g req token sc w) with
         | Ok _ => Ok (VDict (<["scopes" := x]> token_info))
         | Raise e => Raise e
         end).
Proof.
  split; [|split].
  - intros g v w1 Hf Hsentinel Hnull Hdict.
    unfold check_oauth_func. unfold_monad. rewrite Hf.
    destruct v; try done. by destruct (Hdict d).
  - intros token_info w1 Hf Hscope Hscopes.
    rewrite (check_oauth_func_mapping _ _ _ _ _ _ _ _ Hf).
    unfold granted_scopes. rewrite Hscope, Hscopes.
    unfold validate_scope_func, lift, validate_scope. simpl.
    destruct sc as [|r sc']; simpl.
    + rewrite bool_decide_eq_true_2; [done|]. set_solver.
    + rewrite bool_decide_eq_false_2; [done|].
      intros Hsub. specialize (Hsub (HStr r)). set_solver.
  - intros g token_info s x w1 w1' Hf Hscope f' Hf' Hg.
    rewrite (check_oauth_func_mapping _ _ _ _ _ _ _ _ Hf).
    rewrite (check_oauth_func_mapping _ _ _ _ _ _ _ _ Hf').
    assert (Hsame : granted_scopes (<["scopes" := x]> token_info) = s).
    { unfold granted_scopes. rewrite lookup_insert_ne by done.
      by rewrite Hscope. }
    assert (Hs : granted_scopes token_info = s).
    { unfold granted_scopes. by rewrite Hscope. }
    rewrite Hsame, Hs, <- Hg.
    destruct (g sc s w1) as [[b|e] w2]; [|done].
    by destruct (truthy b).
Qed.

Lemma check_oauth_func_edges_witness :
  check_oauth_func (λ _, ret (VBool true)) validate_scope_func
    empty_request "xyz" ["read"] fresh_world
  = (Raise (AttributeError "'bool' object has no attribute 'get'"),
     fresh_world)
  ∧ check_oauth_func empty_info_func validate_scope_func
      empty_request "xyz" [] fresh_world
    = (Ok (VDict ∅), fresh_world).
Proof.
  split.
  - apply (proj1 (check_oauth_func_edges (λ _, ret (VBool true))
                    empty_request "xyz" ["read"] fresh_world)
             validate_scope_func (VBool true) fresh_world);
      [reflexivity|discriminate|discriminate|discriminate].
  - exact (proj1 (proj2 (check_oauth_func_edges empty_info_func
                    empty_request "xyz" [] fresh_world))
             ∅ fresh_world eq_refl eq_refl eq_refl).
Defined.

(** ** Further properties of the introspectors and of the resolution *)

(** X11.  The Flask and the aiohttp introspector agree on a response with
    status 200, which both parse, and on a 4xx or 5xx status, which both
    reject with the response attached; on every other status (201..399,
    600 and above) the Flask introspector parses the body and the aiohttp
    introspector rejects the token. *)
Theorem introspectors_by_status endpoint json timeout url token w r body :
  endpoint url [("Authorization", "Bearer " +:+ token)] timeout = Ok r →
  json r = Ok body →
  (status_code r = 200%Z →
   fst (flask_get_token_info_remote endpoint json timeout url token w)
   = Ok body
   ∧ fst ((let! x := aiohttp_get_token_info_remote endpoint json timeout
                       url token in await_all x) w)
     = Ok body)
  ∧ ((400 ≤ status_code r < 600)%Z →
     fst (flask_get_token_info_remote endpoint json timeout url token w)
     = Raise (RemoteTokenRejected r)
     ∧ fst ((let! x := aiohttp_get_token_info_remote endpoint json timeout
                         url token in await_all x) w)
       = Raise (OAuthResponseProblem
                  (Some "Provided token is not valid") (Some r)))
  ∧ (status_code r ≠ 200%Z → ¬ (400 ≤ status_code r < 600)%Z →
     fst (flask_get_token_info_remote endpoint json timeout url token w)
     = Ok body
     ∧ fst ((let! x := aiohttp_get_token_info_remote endpoint json timeout
                         url token in await_all x) w)
       = Raise (OAuthResponseProblem
                  (Some "Provided token is not valid") (Some r))).
Proof.
  intros Hr Hbody.
  assert (Hflask :
    fst (flask_get_token_info_remote endpoint json timeout url token w)
    = if ok r then Ok body else Raise (RemoteTokenRejected r)).
  { unfold flask_get_token_info_remote, bind.
    rewrite session_get_run. unfold bearer_header. rewrite Hr.
    destruct (ok r); simpl; [|done]. unfold lift. by rewrite Hbody. }
  assert (Haio :
    fst ((let! x := aiohttp_get_token_info_remote endpoint json timeout
                      url token in await_all x) w)
    = if (status_code r =? 200)%Z then Ok body
      else Raise (OAuthResponseProblem
                    (Some "Provided token is not valid") (Some r))).
  { unfold aiohttp_get_token_info_remote. unfold bind at 1.
    unfold ret at 1. simpl. unfold bind at 1.
    rewrite session_get_run. unfold bearer_header. rewrite Hr.
    destruct (status_code r =? 200)%Z; simpl; [|done].
    unfold bind, lift, ret. by rewrite Hbody. }
  rewrite Hflask, Haio. unfold ok. split; [|split].
  - intros ->. done.
  - intros [Hlo Hhi].
    rewrite (proj2 (Z.leb_le _ _) Hlo), (proj2 (Z.ltb_lt _ _) Hhi).
    simpl. rewrite (proj2 (Z.eqb_neq _ _)); [done|lia].
  - intros Hne Hout.
    rewrite (proj2 (Z.eqb_neq _ _) Hne). split; [|done].
    destruct (400 <=? status_code r)%Z eqn:Hlo; [|done].
    destruct (status_code r <? 600)%Z eqn:Hhi; [|done].
    apply Z.leb_le in Hlo. apply Z.ltb_lt in Hhi. lia.
Qed.

Lemma introspectors_by_status_witness :
  fst (flask_get_token_info_remote no_content_endpoint sample_json 5
         "https://idp.example/tokeninfo" "xyz" fresh_world)
  = Ok (VDict alice_info)
  ∧ fst ((let! x := aiohttp_get_token_info_remote no_content_endpoint
                      sample_json 5 "https://idp.example/tokeninfo" "xyz"
          in await_all x) fresh_world)
    = Raise (OAuthResponseProblem (Some "Provided token is not valid")
               (Some (Response 204 ""))).
Proof.
  apply (proj2 (proj2 (introspectors_by_status no_content_endpoint
           sample_json 5%Z "https://idp.example/tokeninfo" "xyz"
           fresh_world (Response 204 "") (VDict alice_info)
           eq_refl eq_refl))).
  - discriminate.
  - simpl. lia.
Defined.

Lemma _get_function_unnamed {F} (resolve : string → result F) environ
    (security_definition : gmap string string) key environ_key default :
  security_definition !! key = None ∨
  security_definition !! key = Some EmptyString →
  environ !! environ_key = None ∨ environ !! environ_key = Some EmptyString →
  _get_function resolve environ security_definition key environ_key default
  = Ok default.
Proof.
  intros [Hsd|Hsd] [Henv|Henv]; unfold _get_function, or_else;
    by rewrite Hsd, Henv.
Qed.

(** X12.  An empty name counts as no name: an empty entry of the security
    definition gives way to the environment variable as a missing one does,
    and when the environment variable is missing or empty too the default
    is returned without a resolution, which is [validate_scope] for the
    scope validation and nothing for the basic, apiKey and bearer
    functions. *)
Theorem configured_names_empty {F} (resolve : string → result F) environ
    (security_definition : gmap string string) :
  (∀ key environ_key default,
     security_definition !! key = Some EmptyString →
     _get_function resolve environ security_definition
       key environ_key default
     = _get_function resolve environ (delete key security_definition)
         key environ_key default)
  ∧ (∀ key environ_key default,
       security_definition !! key = None ∨
       security_definition !! key = Some EmptyString →
       environ !! environ_key = None ∨
       environ !! environ_key = Some EmptyString →
       _get_function resolve environ security_definition
         key environ_key default
       = Ok default)
  ∧ (∀ validate_scope,
       security_definition !! "x-scopeValidateFunc" = None →
       environ !! "SCOPEVALIDATE_FUNC" = None →
       get_scope_validate_func resolve environ validate_scope
         security_definition
       = Ok (Some validate_scope))
  ∧ (security_definition !! "x-basicInfoFunc" = None →
     environ !! "BASICINFO_FUNC" = None →
     get_basicinfo_func resolve environ security_definition = Ok None)
  ∧ (security_definition !! "x-apikeyInfoFunc" = None →
     environ !! "APIKEYINFO_FUNC" = None →
     get_apikeyinfo_func resolve environ security_definition = Ok None)
  ∧ (security_definition !! "x-bearerInfoFunc" = None →
     environ !! "BEARERINFO_FUNC" = None →
     get_bearerinfo_func resolve environ security_definition = Ok None).
Proof.
  split; [|split; [|split; [|split; [|split]]]].
  - intros key environ_key default Hsd.
    unfold _get_function, or_else. by rewrite Hsd, lookup_delete_eq.
  - intros key environ_key default. apply _get_function_unnamed.
  - intros validate Hsd Henv. apply _get_function_unnamed; by left.
  - intros Hsd Henv. apply _get_function_unnamed; by left.
  - intros Hsd Henv. apply _get_function_unnamed; by left.
  - intros Hsd Henv. apply _get_function_unnamed; by left.
Qed.

Lemma configured_names_empty_witness :
  _get_function sample_resolver {[ "BEARERINFO_FUNC" := "app.token_info" ]}
    {[ "x-bearerInfoFunc" := "" ]} "x-bearerInfoFunc" "BEARERINFO_FUNC" None
  = _get_function sample_resolver
      {[ "BEARERINFO_FUNC" := "app.token_info" ]}
      (delete "x-bearerInfoFunc" {[ "x-bearerInfoFunc" := "" ]})
      "x-bearerInfoFunc" "BEARERINFO_FUNC" None
  ∧ get_basicinfo_func sample_resolver ∅ {[ "x-basicInfoFunc" := "" ]}
    = Ok None.
Proof.
  split.
  - exact (proj1 (configured_names_empty sample_resolver
                    {[ "BEARERINFO_FUNC" := "app.token_info" ]}
                    {[ "x-bearerInfoFunc" := "" ]})
             "x-bearerInfoFunc" "BEARERINFO_FUNC" None eq_refl).
  - apply (proj1 (proj2 (configured_names_empty sample_resolver ∅
                           {[ "x-basicInfoFunc" := "" ]}))
             "x-basicInfoFunc" "BASICINFO_FUNC" None).
    + by right.
    + by left.
Defined.

(** X13.  [get_tokeninfo_func] prefers a named verification function to a
    token-info URL: with a name it returns what the resolution gives,
    whatever URL is configured.  With a URL and no name it reaches the line
    that builds the remote introspector from the undefined [cls] and raises
    [NameError]; with neither it returns nothing. *)
Theorem get_tokeninfo_func_precedence {F} (resolve : string → result F)
    environ (security_definition : gmap string string) :
  (∀ name,
     security_definition !! "x-tokenInfoFunc" = Some name →
     name ≠ EmptyString →
     get_tokeninfo_func resolve environ security_definition
     = match resolve name with
       | Ok f => Ok (Some f)
       | Raise e => Raise e
       end)
  ∧ (∀ url,
       security_definition !! "x-tokenInfoFunc" = None →
       environ !! "TOKENINFO_FUNC" = None →
       or_else (security_definition !! "x-tokenInfoUrl")
         (environ !! "TOKENINFO_URL") = Some url →
       url ≠ EmptyString →
       get_tokeninfo_func resolve environ security_definition
       = Raise (Foreign "NameError"))
  ∧ (security_definition !! "x-tokenInfoFunc" = None →
     environ !! "TOKENINFO_FUNC" = None →
     security_definition !! "x-tokenInfoUrl" = None →
     environ !! "TOKENINFO_URL" = None →
     get_tokeninfo_func resolve environ security_definition = Ok None).
Proof.
  split; [|split].
  - intros name Hname Hne. unfold get_tokeninfo_func, _get_function, or_else.
    rewrite Hname. apply truthy_str in Hne. rewrite !Hne.
    by destruct (resolve name).
  - intros url Hsd Henv Hurl Hne. unfold get_tokeninfo_func.
    rewrite _get_function_unnamed by (by left).
    rewrite Hurl. apply truthy_str in Hne. by rewrite Hne.
  - intros Hsd Henv Hurl Henvurl. unfold get_tokeninfo_func.
    rewrite _get_function_unnamed by (by left).
    unfold or_else. by rewrite Hurl, Henvurl.
Qed.

Lemma get_tokeninfo_func_precedence_witness :
  get_tokeninfo_func sample_resolver ∅
    {[ "x-tokenInfoFunc" := "app.token_info";
       "x-tokenInfoUrl" := "https://idp.example/tokeninfo" ]}
  = Ok (Some sample_token_info_func)
  ∧ get_tokeninfo_func sample_resolver ∅
      {[ "x-tokenInfoUrl" := "https://idp.example/tokeninfo" ]}
    = Raise (Foreign "NameError").
Proof.
  split.
  - exact (proj1 (get_tokeninfo_func_precedence sample_resolver ∅
                    {[ "x-tokenInfoFunc" := "app.token_info";
                       "x-tokenInfoUrl" := "https://idp.example/tokeninfo" ]})
             "app.token_info" eq_refl ltac:(discriminate)).
  - exact (proj1 (proj2 (get_tokeninfo_func_precedence sample_resolver ∅
                           {[ "x-tokenInfoUrl" :=
                                "https://idp.example/tokeninfo" ]}))
             "https://idp.example/tokeninfo" eq_refl eq_refl eq_refl
             ltac:(discriminate)).
Defined.

(** ** The names and routes of the aiohttp API *)

Lemma length_append (a b : string) :
  String.length (a +:+ b) = String.length a + String.length b.
Proof. induction a as [|c a IH]; simpl; [done|]. by rewrite IH. Qed.

Lemma name_text_append a b :
  name_text (a +:+ b) = name_text a && name_text b.
Proof.
  unfold name_text. induction a as [|c a IH]; simpl; [done|].
  by rewrite IH, andb_assoc.
Qed.

Lemma sub_non_alnum_name_text s :
  name_text (PyText.sub_non_alnum s) = true.
Proof.
  unfold name_text. induction s as [|c s IH]; simpl; [done|].
  rewrite IH, andb_true_r. unfold name_char.
  destruct (PyText.is_alnum c) eqn:Hc; [by rewrite Hc|done].
Qed.

Lemma sub_non_alnum_length s :
  String.length (PyText.sub_non_alnum s) = String.length s.
Proof. induction s as [|c s IH]; simpl; [done|]. by rewrite IH. Qed.

Lemma sub_non_alnum_fixed s :
  name_text s = true → PyText.sub_non_alnum s = s.
Proof.
  unfold name_text. induction s as [|c s IH]; simpl; [done|].
  intros [Hc Hs]%andb_true_iff. rewrite (IH Hs). f_equal.
  destruct (PyText.is_alnum c) eqn:Halnum; [done|].
  unfold name_char in Hc. rewrite Halnum in Hc. simpl in Hc.
  by apply Ascii.eqb_eq in Hc.
Qed.

Lemma name_text_no_slash s :
  name_text s = true → PyStr.has_char "/" s = false.
Proof.
  unfold name_text, PyStr.has_char.
  induction s as [|c s IH]; simpl; [done|].
  intros [Hc Hs]%andb_true_iff. rewrite (IH Hs), orb_false_r.
  destruct (Ascii.eqb c "/") eqn:Heq; [|done].
  apply Ascii.eqb_eq in Heq. by subst c.
Qed.

Lemma lstrip_char_absent c s :
  PyStr.has_char c s = false → PyText.lstrip_char c s = s.
Proof.
  unfold PyStr.has_char. destruct s as [|x s]; simpl; [done|].
  by intros [-> _]%orb_false_iff.
Qed.

Lemma rstrip_char_absent c s :
  PyStr.has_char c s = false → PyText.rstrip_char c s = s.
Proof.
  unfold PyStr.has_char. induction s as [|x s IH]; simpl; [done|].
  intros [Hx Hs]%orb_false_iff. rewrite (IH Hs), Hx. by destruct s.
Qed.

Lemma lstrip_char_length c s :
  String.length (PyText.lstrip_char c s) ≤ String.length s.
Proof.
  induction s as [|x s IH]; simpl; [done|].
  destruct (Ascii.eqb x c); simpl; lia.
Qed.

Lemma rstrip_char_length c s :
  String.length (PyText.rstrip_char c s) ≤ String.length s.
Proof.
  induction s as [|x s IH]; simpl; [done|].
  destruct (PyText.rstrip_char c s); [destruct (Ascii.eqb x c)|];
    simpl in *; lia.
Qed.

Lemma normalize_string_name_text s :
  name_text (AioHttpApi.normalize_string s) = true.
Proof. apply sub_non_alnum_name_text. Qed.

(** X14.  [normalize_string] yields a text of ASCII letters, digits and
    underscores that is no longer than its argument; it leaves such a text
    as it is, so normalizing twice is normalizing once. *)
Theorem normalize_string_normal s :
  name_text (AioHttpApi.normalize_string s) = true
  ∧ String.length (AioHttpApi.normalize_string s) ≤ String.length s
  ∧ (name_text s = true → AioHttpApi.normalize_string s = s)
  ∧ AioHttpApi.normalize_string (AioHttpApi.normalize_string s)
    = AioHttpApi.normalize_string s.
Proof.
  assert (Hfixed : ∀ t, name_text t = true →
                        AioHttpApi.normalize_string t = t).
  { intros t Ht. unfold AioHttpApi.normalize_string, PyText.strip_char.
    pose proof (name_text_no_slash _ Ht) as Hslash.
    rewrite (lstrip_char_absent _ _ Hslash).
    rewrite (rstrip_char_absent _ _ Hslash).
    by apply sub_non_alnum_fixed. }
  split; [apply normalize_string_name_text|]. split; [|split].
  - unfold AioHttpApi.normalize_string, PyText.strip_char.
    rewrite sub_non_alnum_length.
    pose proof (rstrip_char_length "/" (PyText.lstrip_char "/" s)).
    pose proof (lstrip_char_length "/" s). lia.
  - apply Hfixed.
  - apply Hfixed, normalize_string_name_text.
Qed.

Lemma normalize_string_normal_witness :
  AioHttpApi.normalize_string "pets_1" = "pets_1".
Proof.
  exact (proj1 (proj2 (proj2 (normalize_string_normal "pets_1"))) eq_refl).
Defined.

Example normalize_path :
  AioHttpApi.normalize_string "/v1.0/pets/{pet-id}/" = "v1_0_pets__pet_id_".
Proof. reflexivity. Qed.

Lemma substring_all s : String.substring 0 (String.length s) s = s.
Proof. induction s as [|c s IH]; simpl; [done|]. by rewrite IH. Qed.

Lemma substring_prefix p q :
  String.substring 0 (String.length p) (p +:+ q) = p.
Proof.
  induction p as [|c p IH]; simpl; [by destruct q|]. by rewrite IH.
Qed.

Lemma substring_suffix p q :
  String.substring (String.length p) (String.length q) (p +:+ q) = q.
Proof. induction p as [|c p IH]; simpl; [apply substring_all|done]. Qed.

Lemma substring_split s m :
  m ≤ String.length s →
  s = String.substring 0 m s
      +:+ String.substring m (String.length s - m) s.
Proof.
  revert m. induction s as [|c s IH]; intros [|m] Hm; simpl in *;
    try done; try lia.
  - by rewrite substring_all.
  - assert (Hm' : m ≤ String.length s) by lia.
    exact (f_equal (String c) (IH m Hm')).
Qed.

Lemma endswith_append p suffix : PyText.endswith (p +:+ suffix) suffix = true.
Proof.
  unfold PyText.endswith. rewrite length_append.
  rewrite (proj2 (Nat.leb_le _ _)) by lia. simpl.
  replace (String.length p + String.length suffix - String.length suffix)
    with (String.length p) by lia.
  rewrite substring_suffix. apply String.eqb_refl.
Qed.

Lemma endswith_inv s suffix :
  PyText.endswith s suffix = true → ∃ p, s = p +:+ suffix.
Proof.
  unfold PyText.endswith. intros [Hle Heq]%andb_true_iff.
  apply Nat.leb_le in Hle. apply String.eqb_eq in Heq.
  exists (String.substring 0 (String.length s - String.length suffix) s).
  assert (Hm : String.length s - String.length suffix ≤ String.length s)
    by lia.
  pose proof (substring_split s _ Hm) as Hsplit.
  replace (String.length s - (String.length s - String.length suffix))
    with (String.length suffix) in Hsplit by lia.
  by rewrite Heq in Hsplit.
Qed.

Lemma drop_last_append p suffix :
  PyText.drop_last (String.length suffix) (p +:+ suffix) = p.
Proof.
  unfold PyText.drop_last. rewrite length_append.
  replace (String.length p + String.length suffix - String.length suffix)
    with (String.length p) by lia.
  apply substring_prefix.
Qed.

(** X15.  [add_openapi_yaml] serves the specification as YAML exactly when
    the path of the JSON specification ends in [json]: it then adds one GET
    route, at the path with that ending replaced by [yaml], and it adds
    nothing for any other path. *)
Theorem add_openapi_yaml_route {H} (_get_openapi_yaml : H) path :
  (∀ prefix,
     path = prefix +:+ "json" →
     AioHttpApi.add_openapi_yaml path _get_openapi_yaml
     = [AioHttpApi.Route "GET" (prefix +:+ "yaml") _get_openapi_yaml None])
  ∧ ((∀ prefix, path ≠ prefix +:+ "json") →
     AioHttpApi.add_openapi_yaml path _get_openapi_yaml = []).
Proof.
  split.
  - intros prefix ->. unfold AioHttpApi.add_openapi_yaml.
    rewrite endswith_append. simpl negb. cbv iota.
    by rewrite (drop_last_append prefix "json").
  - intros Hnot. unfold AioHttpApi.add_openapi_yaml.
    destruct (PyText.endswith path "json") eqn:Hends; [|done].
    destruct (endswith_inv _ _ Hends) as [p Hp]. by destruct (Hnot p).
Qed.

Lemma add_openapi_yaml_route_witness :
  AioHttpApi.add_openapi_yaml "/openapi.json" "yaml_handler"
  = [AioHttpApi.Route "GET" "/openapi.yaml" "yaml_handler" None].
Proof.
  exact (proj1 (add_openapi_yaml_route "yaml_handler" "/openapi.json")
           "/openapi." eq_refl).
Defined.

Lemma name_char_method c :
  name_char c = true →
  name_char (PyStr.lower_char (PyText.upper_char c)) = true.
Proof. destruct c as [[] [] [] [] [] [] [] []]; vm_compute; auto. Qed.

Lemma name_text_method s :
  name_text s = true → name_text (PyStr.lower (PyText.upper s)) = true.
Proof.
  unfold name_text. induction s as [|c s IH]; simpl; [done|].
  intros [Hc Hs]%andb_true_iff.
  by rewrite (name_char_method _ Hc), (IH Hs).
Qed.

Lemma append_underscore_neq (n : string) : n ≠ n +:+ "_".
Proof.
  intros Heq. apply (f_equal String.length) in Heq.
  rewrite length_append in Heq. simpl in Heq. lia.
Qed.

(** X16.  [_add_operation_internal] makes an operation reachable with and
    without a trailing slash: it adds a route for the path and, when the
    path does not end in a slash, one more for the path with the slash.
    The routes carry the method in upper case and the handler of the
    operation, their names differ, and the names are texts of ASCII
    letters, digits and underscores when the name of the API and the method
    are. *)
Theorem add_operation_routes {H} api_name method path
    (op : AioHttpApi.operation H) :
  let routes :=
    AioHttpApi._add_operation_internal api_name method path op in
  (∀ r, r ∈ routes →
        AioHttpApi.route_method r = PyText.upper method
        ∧ AioHttpApi.route_handler r = AioHttpApi.function op)
  ∧ (∃ r, r ∈ routes ∧ AioHttpApi.route_path r = path)
  ∧ (∃ r, r ∈ routes
          ∧ PyText.endswith (AioHttpApi.route_path r) "/" = true
          ∧ (AioHttpApi.route_path r = path
             ∨ AioHttpApi.route_path r = path +:+ "/"))
  ∧ NoDup (AioHttpApi.route_name <$> routes)
  ∧ (name_text api_name = true → name_text method = true →
     ∀ r, r ∈ routes →
          ∃ n, AioHttpApi.route_name r = Some n ∧ name_text n = true).
Proof.
  intros routes. unfold routes, AioHttpApi._add_operation_internal.
  set (name := api_name +:+ "_" +:+ AioHttpApi.normalize_string path
               +:+ "_" +:+ PyStr.lower (PyText.upper method)).
  destruct (PyText.endswith path "/") eqn:Hends; simpl.
  - split; [|split; [|split; [|split]]].
    + intros r ->%list_elem_of_singleton. done.
    + eexists. split; [apply list_elem_of_here|done].
    + eexists. split; [apply list_elem_of_here|]. simpl. auto.
    + apply NoDup_singleton.
    + intros Hapi Hmethod r ->%list_elem_of_singleton. exists name.
      split; [done|]. unfold name.
      rewrite !name_text_append, Hapi, normalize_string_name_text.
      by rewrite (name_text_method _ Hmethod).
  - split; [|split; [|split; [|split]]].
    + intros r [->|[->|[]%elem_of_nil]%elem_of_cons]%elem_of_cons; done.
    + eexists. split; [apply list_elem_of_here|done].
    + eexists. split; [apply list_elem_of_further, list_elem_of_here|].
      simpl. split; [apply endswith_append|auto].
    + apply NoDup_cons. split; [|apply NoDup_singleton].
      intros [= Heq]%list_elem_of_singleton.
      by apply append_underscore_neq in Heq.
    + intros Hapi Hmethod r Hr.
      assert (Hname : name_text name = true).
      { unfold name.
        rewrite !name_text_append, Hapi, normalize_string_name_text.
        by rewrite (name_text_method _ Hmethod). }
      apply elem_of_cons in Hr as [->|[->|[]%elem_of_nil]%elem_of_cons].
      * by exists name.
      * exists (name +:+ "_"). split; [done|].
        by rewrite name_text_append, Hname.
Qed.

Lemma add_operation_routes_witness :
  Forall (λ r, ∃ n, AioHttpApi.route_name r = Some n ∧ name_text n = true)
    (AioHttpApi._add_operation_internal "api" "get" "/pets/{id}"
       (AioHttpApi.Operation (Some "get_pet") "pet_handler")).
Proof.
  apply Forall_forall.
  exact (proj2 (proj2 (proj2 (proj2
           (add_operation_routes "api" "get" "/pets/{id}"
              (AioHttpApi.Operation (Some "get_pet") "pet_handler")))))
           eq_refl eq_refl).
Defined.

Example add_operation_twin :
  AioHttpApi._add_operation_internal "api" "get" "/pets/{id}"
    (AioHttpApi.Operation (Some "get_pet") "pet_handler")
  = [AioHttpApi.Route "GET" "/pets/{id}" "pet_handler"
       (Some "api_pets__id__get");
     AioHttpApi.Route "GET" "/pets/{id}/" "pet_handler"
       (Some "api_pets__id__get_")].
Proof. reflexivity. Qed.

(** ** The secured handler behind the problem middleware *)

(** X17.  Behind [oauth_problem_middleware], the handler secured by the
    cooperative [verify_security] answers a request without credentials
    with a problem response: the status of the exception, its description
    as JSON, the content type [application/problem+json]; the wrapped
    handler is not invoked.  A scope failure of a verifier becomes a problem
    response in the same way, and the response of an authenticated request
    is passed on.  The verifiers are any verifiers of the cooperative
    factory, described by what they give once their pending results are
    awaited.  The middleware lets through what is not an OAuth problem: the
    [AttributeError] of an empty list of verifiers and the error of
    [security_deny] reach the framework as exceptions. *)
Theorem secured_handler_behind_middleware {R} code response_problem dumps
    sc (function : request → M R) req w :
  (∀ (afs : list (verifier aval)) w1,
     afs ≠ [] → all_no_value (awaited <$> afs) req sc w = Some w1 →
     AioHttpApi.oauth_problem_middleware code response_problem dumps req
       (AsyncSecurityHandlerFactory.verify_security afs sc function) w
     = (Ok (AioHttpApi.Problem (code NoAuthorization)
              (dumps (Some "No authorization token provided"))
              "application/problem+json"), w1))
  ∧ (∀ (pre : list (verifier aval)) f post w1 w2
       description required granted,
       all_no_value (awaited <$> pre) req sc w = Some w1 →
       awaited f req sc w1
       = (Raise (OAuthScopeProblem description required granted), w2) →
       AioHttpApi.oauth_problem_middleware code response_problem dumps req
         (AsyncSecurityHandlerFactory.verify_security
            (pre ++ f :: post) sc function) w
       = (Ok (AioHttpApi.Problem
                (code (OAuthScopeProblem description required granted))
                (dumps (Some description))
                "application/problem+json"), w2))
  ∧ (∀ (pre : list (verifier aval)) f post w1 w2 token_info response w3,
       all_no_value (awaited <$> pre) req sc w = Some w1 →
       awaited f req sc w1 = (Ok (VDict token_info), w2) →
       function req
         (World (<["token_info" := VDict token_info]>
                   (<["user" := subject token_info]> (context w2)))
            (journal w2))
       = (Ok response, w3) →
       AioHttpApi.oauth_problem_middleware code response_problem dumps req
         (AsyncSecurityHandlerFactory.verify_security
            (pre ++ f :: post) sc function) w
       = (Ok (AioHttpApi.Passed response), w3))
  ∧ AioHttpApi.oauth_problem_middleware code response_problem dumps req
      (AsyncSecurityHandlerFactory.verify_security [] sc function) w
    = (Raise (AttributeError "'NoneType' object has no attribute 'get'"), w)
  ∧ AioHttpApi.oauth_problem_middleware code response_problem dumps req
      (security_deny function) w
    = (Raise (ConnexionException "Error in security definitions"), w).
Proof.
  split; [|split; [|split; [|split]]].
  - intros afs w1 Hne Hall. unfold AioHttpApi.oauth_problem_middleware.
    rewrite async_verify_security_awaited, verify_security_unfold.
    assert (Hne' : awaited <$> afs ≠ []) by by destruct afs.
    by rewrite (auth_loop_all_no_value _ _ _ _ _ _ Hne' Hall).
  - intros pre f post w1 w2 description required granted Hpre Hf.
    unfold AioHttpApi.oauth_problem_middleware.
    rewrite async_verify_security_awaited, verify_security_unfold.
    rewrite fmap_app, fmap_cons.
    rewrite (auth_loop_prefix _ _ _ _ _ _ _ Hpre).
    rewrite auth_loop_first; by rewrite Hf.
  - intros pre f post w1 w2 token_info response w3 Hpre Hf Hrun.
    unfold AioHttpApi.oauth_problem_middleware.
    rewrite async_verify_security_awaited, verify_security_unfold.
    rewrite fmap_app, fmap_cons.
    rewrite (auth_loop_prefix _ _ _ _ _ _ _ Hpre).
    rewrite auth_loop_first; rewrite Hf; [|done]. simpl.
    assert (Huser :
      match token_info !! "sub" with
      | Some v => v
      | None => match token_info !! "uid" with
                | Some v => v
                | None => VNone
                end
      end = subject token_info) by done.
    rewrite Huser, Hrun. done.
  - unfold AioHttpApi.oauth_problem_middleware.
    rewrite (async_verify_security_awaited []), verify_security_unfold.
    done.
  - done.
Qed.

Lemma secured_handler_behind_middleware_witness :
  AioHttpApi.oauth_problem_middleware sample_code true sample_dumps
    empty_request
    (AsyncSecurityHandlerFactory.verify_security
       [pending (skipping "bearer"); resolved (skipping "apiKey")]
       ["read"] sample_handler) fresh_world
  = (Ok (AioHttpApi.Problem 401 "No authorization token provided"
           "application/problem+json"),
     World ∅ [Called "bearer"; Called "apiKey"]).
Proof.
  apply (proj1 (secured_handler_behind_middleware sample_code true
                  sample_dumps ["read"] sample_handler empty_request
                  fresh_world)
           [pending (skipping "bearer"); resolved (skipping "apiKey")]).
  - discriminate.
  - reflexivity.
Defined.

(** ** The context of a Flask request *)

(** X18.  A Flask request starts with an empty context: whatever the
    context held before [get_request], a handler secured by
    [verify_security] with verifiers that do not write the context reads,
    through the [context] proxy, the two keys [user] and [token_info] of
    this request and nothing else. *)
Theorem flask_context_is_fresh flask_request pre f post sc w w1 w2
    token_info :
  let req := Request (FlaskApi.fr_headers flask_request)
               (FlaskApi.fr_args flask_request) in
  all_no_value pre req sc (World ∅ (journal w)) = Some w1 →
  f req sc w1 = (Ok (VDict token_info), w2) →
  context w2 = ∅ →
  fst ((let! req := FlaskApi.get_request flask_request in
        verify_security (pre ++ f :: post) sc
          (λ _, FlaskApi._get_context) req) w)
  = Ok {[ "user" := subject token_info;
          "token_info" := VDict token_info ]}.
Proof.
  intros req Hpre Hf Hctx.
  unfold bind at 1. unfold FlaskApi.get_request. fold req.
  rewrite verify_security_unfold, (auth_loop_prefix _ _ _ _ _ _ _ Hpre).
  rewrite auth_loop_first; rewrite Hf; [|done]. simpl.
  assert (Huser :
    match token_info !! "sub" with
    | Some v => v
    | None => match token_info !! "uid" with
              | Some v => v
              | None => VNone
              end
    end = subject token_info) by done.
  rewrite Huser, Hctx. unfold FlaskApi._get_context. simpl.
  by f_equal.
Qed.

Lemma flask_context_is_fresh_witness :
  fst ((let! req := FlaskApi.get_request (FlaskApi.FlaskRequest ∅ ∅) in
        verify_security
          ([skipping "bearer"] ++ answering "basic" (VDict bob_info)
             :: [answering "apiKey" (VDict alice_info)])
          [] (λ _, FlaskApi._get_context) req)
         (World {[ "user" := VStr "mallory"; "admin" := VBool true ]} []))
  = Ok {[ "user" := subject bob_info; "token_info" := VDict bob_info ]}.
Proof.
  apply (flask_context_is_fresh (FlaskApi.FlaskRequest ∅ ∅)
           [skipping "bearer"] (answering "basic" (VDict bob_info))
           [answering "apiKey" (VDict alice_info)] []
           (World {[ "user" := VStr "mallory"; "admin" := VBool true ]} [])
           (World ∅ [Called "bearer"])
           (World ∅ [Called "bearer"; Called "basic"]) bob_info);
    reflexivity.
Defined.
